(** * flingoos_shared_models: the session record and the text trigger contracts

    The two Python modules [persistent_session.py] and [text_trigger.py]
    declare pydantic (v2) models.  A model class is a list of annotated
    fields; constructing an instance validates an untyped key/value
    structure against the annotations, and [model_dump] serializes an
    instance back into such a structure.

    This development gives
    - the untyped structures ([value], Python dicts as [gmap string value]),
    - the validators the annotations stand for ([str_], [int_], [float_],
      [Optional], enumerations, [Literal], nested models), with pydantic's
      error accumulation,
    - one module per class of the source, with the class as a record, its
      [validate] (validate-and-construct), its [model_dump] (serialize) and
      its class body as a table of declared constraints ([fields]),
    - the properties of the contract.

    The untyped structures are the JSON-compatible ones.  A member of a
    [str]-valued enumeration is, as a value, the string that is its
    value.

    A Python [str] is a [string]; one character of the [string] stands for
    one character of the [str], so [String.length] is Python's [len], the
    measure of [min_length] and [max_length]. *)

From Stdlib Require Import ZArith String List Floats.SpecFloat.
From stdpp Require Import gmap strings list fin_maps.

Local Open Scope string_scope.

(** ** Untyped key/value structures *)

(** A Python float is an IEEE 754 binary64 number. *)
Abbreviation float := spec_float (only parsing).

(** JSON-compatible Python values: [None], [bool], [int], [float], [str],
    [list] and [dict] with [str] keys. *)
#[warnings="-register-all"]
Inductive value : Type :=
| VNone
| VBool (b : bool)
| VInt (z : Z)
| VFloat (f : float)
| VStr (s : string)
| VList (l : list value)
| VDict (d : gmap string value).

Abbreviation dict := (gmap string value) (only parsing).

(** ** Validation results *)

(** The [type] of a pydantic error. *)
Inductive ErrorType : Type :=
| missing
| extra_forbidden
| model_type
| string_type
| string_too_short
| string_too_long
| int_type
| int_parsing
| int_from_float
| float_type
| float_parsing
| enum
| literal_error
| frozen_instance.

(** One entry of [ValidationError.errors()]: what failed and where. *)
Record ErrorDetails : Type := { type : ErrorType; loc : list string }.

Inductive result (A : Type) : Type :=
| Ok (a : A)
| ValidationError (errors : list ErrorDetails).
Arguments Ok {A} a.
Arguments ValidationError {A} errors.

Definition is_ok {A} (r : result A) : bool :=
  match r with Ok _ => true | ValidationError _ => false end.

(** Construction fails: a [ValidationError] is raised. *)
Definition fails {A} (r : result A) : Prop := is_ok r = false.

Definition fail {A} (t : ErrorType) : result A :=
  ValidationError [{| type := t; loc := [] |}].

#[global] Instance result_fmap : FMap result := fun A B f r =>
  match r with
  | Ok a => Ok (f a)
  | ValidationError e => ValidationError e
  end.

(** Fields are validated one after the other and every error is kept:
    pydantic reports all the offending fields, not the first one. *)
Definition ap {A B} (rf : result (A -> B)) (ra : result A) : result B :=
  match rf, ra with
  | Ok f, Ok a => Ok (f a)
  | Ok _, ValidationError e => ValidationError e
  | ValidationError e, Ok _ => ValidationError e
  | ValidationError e1, ValidationError e2 => ValidationError (e1 ++ e2)
  end.

Notation "rf <*> ra" := (ap rf ra) (at level 61, left associativity).

(** An error inside field [k] is located under [k]. *)
Definition at_loc {A} (k : string) (r : result A) : result A :=
  match r with
  | Ok a => Ok a
  | ValidationError e =>
      ValidationError
        (map (fun x => {| type := type x; loc := k :: loc x |}) e)
  end.

(** ** Model configuration *)

Inductive Extra : Type := ignore | forbid.

Record ConfigDict : Type := { extra : Extra; frozen : bool }.

(** What a class without [model_config] gets: undeclared keys are ignored
    and instances are not frozen.  [ConfigDict(extra='forbid')] changes
    the first and leaves the second. *)
Definition default_config : ConfigDict := {| extra := ignore; frozen := false |}.
Definition forbid_config : ConfigDict := {| extra := forbid; frozen := false |}.

(** The keys of the input that the class does not declare. *)
Definition extra_keys (fields : list string) (d : dict) : list string :=
  filter (fun k => k ∉ fields) (elements (dom d)).

(** With [extra='forbid'] every undeclared key is an error of its own
    (reported after the errors of the fields; the order among these
    entries is that of [elements], not the input's). *)
Definition extra_errors (cfg : ConfigDict) (fields : list string) (d : dict)
  : list ErrorDetails :=
  match extra cfg with
  | ignore => []
  | forbid =>
      map (fun k => {| type := extra_forbidden; loc := [k] |})
          (extra_keys fields d)
  end.

Definition with_errors {A} (r : result A) (more : list ErrorDetails) : result A :=
  match more with
  | [] => r
  | _ :: _ =>
      match r with
      | Ok _ => ValidationError more
      | ValidationError e => ValidationError (e ++ more)
      end
  end.

(** ** Fields: required, or with a default *)

(** [name: T] and [name: T = Field(...)]: the key must be there. *)
Definition required {A} (k : string) (validator : value -> result A) (d : dict)
  : result A :=
  match d !! k with
  | Some v => at_loc k (validator v)
  | None => ValidationError [{| type := missing; loc := [k] |}]
  end.

(** [name: T = default]: the default is taken as it is (it is not
    validated) when the key is absent. *)
Definition with_default {A} (k : string) (validator : value -> result A)
    (default : A) (d : dict) : result A :=
  match d !! k with
  | Some v => at_loc k (validator v)
  | None => Ok default
  end.

(** ** Annotations *)

(** Python's [len] of a [str]. *)
Definition len (s : string) : Z := Z.of_nat (String.length s).

(** [str], with the [min_length] and [max_length] of its [Field].  Only a
    [str] is a valid string: numbers are not converted. *)
Definition str_ (min_length max_length : option Z) (v : value) : result string :=
  match v with
  | VStr s =>
      if match min_length with Some n => len s <? n | None => false end
      then fail string_too_short
      else if match max_length with Some n => n <? len s | None => false end
      then fail string_too_long
      else Ok s
  | _ => fail string_type
  end%Z.

(** Plain [str]. *)
Definition str := str_ None None.

(** pydantic validates in lax mode unless told otherwise: an [int] field
    also takes a [bool], a numeric [str] and a [float] without fractional
    part, a [float] field also takes a [bool], an [int] and a numeric
    [str].  How text is read as a number and how the two number types
    convert is the library's business; the contract holds for any such
    conversion. *)
Class LaxCoercions : Type := {
  str_as_int : string -> option Z;
  float_as_int : float -> option Z;
  str_as_float : string -> option float;
  int_as_float : Z -> option float
}.

(** The conversions that accept nothing: strict numbers. *)
Definition strict_numbers : LaxCoercions := {|
  str_as_int := fun _ => None;
  float_as_int := fun _ => None;
  str_as_float := fun _ => None;
  int_as_float := fun _ => None
|}.

Definition of_option {A} (t : ErrorType) (o : option A) : result A :=
  match o with Some a => Ok a | None => fail t end.

Definition int_ `{LaxCoercions} (v : value) : result Z :=
  match v with
  | VInt z => Ok z
  | VBool b => Ok (if b then 1%Z else 0%Z)
  | VFloat f => of_option int_from_float (float_as_int f)
  | VStr s => of_option int_parsing (str_as_int s)
  | _ => fail int_type
  end.

Definition float_one : float := S754_finite false 1 0.

Definition float_ `{LaxCoercions} (v : value) : result float :=
  match v with
  | VFloat f => Ok f
  | VInt z => of_option float_type (int_as_float z)
  | VBool b => Ok (if b then float_one else S754_zero false)
  | VStr s => of_option float_parsing (str_as_float s)
  | _ => fail float_type
  end.

(** [Optional[T]]: [None], or a [T]. *)
Definition Optional {A} (validator : value -> result A) (v : value)
  : result (option A) :=
  match v with
  | VNone => Ok None
  | _ => Some <$> validator v
  end.

(** A [str]-valued [Enum]: the input is looked up among the members'
    values. *)
Definition enum_ {E} (members : list E) (value_of : E -> string) (v : value)
  : result E :=
  match v with
  | VStr s =>
      of_option enum (find (fun e => bool_decide (value_of e = s)) members)
  | _ => fail enum
  end.

(** [Literal[s1, ..., sn]]: the input is one of the listed strings. *)
Definition Literal (allowed : list string) (v : value) : result string :=
  match v with
  | VStr s => if bool_decide (s ∈ allowed) then Ok s else fail literal_error
  | _ => fail literal_error
  end.

(** A field whose annotation is another model: the input is a dict and
    validates as that model. *)
Definition model_ {A} (validate : dict -> result A) (v : value) : result A :=
  match v with
  | VDict d => validate d
  | _ => fail model_type
  end.

(** Serialization of an optional field. *)
Definition dump_option {A} (dump : A -> value) (o : option A) : value :=
  match o with Some a => dump a | None => VNone end.

(** Attribute assignment, [m.name = x], on a model whose configuration
    does not validate assignments: refused when the model is frozen, a
    plain store otherwise. *)
Definition setattr {T} (cfg : ConfigDict) (store : T -> T) (m : T) : result T :=
  if frozen cfg then fail frozen_instance else Ok (store m).

(** The round trip of an instance [m]: its serialization constructs [m]
    again, so serializing what was constructed gives the structure back. *)
Definition round_trips {T} (validate : dict -> result T)
    (model_dump : T -> dict) (m : T) : Prop :=
  validate (model_dump m) = Ok m /\
  model_dump <$> validate (model_dump m) = Ok (model_dump m).

(** ** The declared constraints, read on untyped structures *)

(** What a class body declares for a field, as a property of the value
    under its key: the Python type of the annotation (no conversion), with
    the bounds of its [Field].  [a_one_of] stands for an enumeration or a
    [Literal], by the strings it lists; [a_model] for an embedded model, by
    what describes its structures ([true]: in serialized form). *)
Inductive annotation : Type :=
| a_str (min_length max_length : option Z)
| a_int
| a_float
| a_one_of (values : list string)
| a_model (described : bool -> dict -> Prop)
| a_optional (a : annotation).

Fixpoint admits (serialized : bool) (a : annotation) (v : value) : Prop :=
  match a with
  | a_str lo hi =>
      exists s, v = VStr s /\
                (forall n, lo = Some n -> n <= len s)%Z /\
                (forall n, hi = Some n -> len s <= n)%Z
  | a_int => exists z, v = VInt z
  | a_float => exists f, v = VFloat f
  | a_one_of values => exists s, v = VStr s /\ s ∈ values
  | a_model described => exists d, v = VDict d /\ described serialized d
  | a_optional a => v = VNone \/ admits serialized a v
  end.

(** A class body as a table: the name of each field, its annotation, and
    whether the field is required ([true]) or has a default ([false]). *)
Abbreviation schema := (list (string * annotation * bool)) (only parsing).

(** A structure whose fields all satisfy the declared constraints: each
    key that is there holds a value its annotation admits, each required
    key is there, and a closed schema ([extra='forbid']) has no other key.
    In serialized form every declared key is there and no other key is. *)
Definition describes (cfg : ConfigDict) (fields : schema) (serialized : bool)
    (d : dict) : Prop :=
  (serialized = true \/ extra cfg = forbid ->
   forall k, is_Some (d !! k) -> k ∈ fields.*1.*1) /\
  Forall (fun '(k, a, is_required) =>
            match d !! k with
            | Some v => admits serialized a v
            | None => serialized = false /\ is_required = false
            end) fields.

(** A validator reads a value: it accepts it, and a value in serialized
    form is the serialization of what was read. *)
Definition reads {A} (serialized : bool) (validator : value -> result A)
    (dump : A -> value) (v : value) : Prop :=
  exists x, validator v = Ok x /\ (serialized = true -> v = dump x).

(** The same for the field under key [k] of a structure. *)
Definition field_reads {A} (serialized : bool) (r : result A)
    (dump : A -> value) (d : dict) (k : string) : Prop :=
  exists x, r = Ok x /\ (serialized = true -> d !! k = Some (dump x)).

(** The round trip of a schema, on untyped structures: a structure
    whose fields all satisfy the declared constraints constructs an
    instance, and when the structure is in serialized form, serializing
    the instance gives the structure back. *)
Definition structures_round_trip {T} (cfg : ConfigDict) (fields : schema)
    (validate : dict -> result T) (model_dump : T -> dict) : Prop :=
  forall (serialized : bool) (d : dict),
    describes cfg fields serialized d ->
    exists m, validate d = Ok m /\ (serialized = true -> model_dump m = d).

(** ** Reported errors, and the fields of a class body by kind *)

(** The entries of the error a failed construction raises. *)
Definition errors_of {A} (r : result A) : list ErrorDetails :=
  match r with Ok _ => [] | ValidationError e => e end.

(** A failed construction reports an error of type [t] at location [at_]. *)
Definition reports {A} (r : result A) (t : ErrorType) (at_ : list string)
  : Prop :=
  fails r /\ {| type := t; loc := at_ |} ∈ errors_of r.

(** The names of the fields of a class body that satisfy a test on their
    annotation and on their being required. *)
Definition names_where (test : annotation -> bool -> bool)
    (fields : list (string * annotation * bool)) : list string :=
  (filter (fun f => test f.1.2 f.2 = true) fields).*1.*1.

(** The required fields. *)
Definition required_names : list (string * annotation * bool) -> list string :=
  names_where (fun _ is_required => is_required).

(** The fields annotated [Optional[...]]. *)
Definition nullable_names : list (string * annotation * bool) -> list string :=
  names_where (fun a _ => match a with a_optional _ => true | _ => false end).

(** The fields annotated [str] or [Optional[str]] without bounds. *)
Definition free_str_names : list (string * annotation * bool) -> list string :=
  names_where (fun a _ =>
                 match a with
                 | a_str None None | a_optional (a_str None None) => true
                 | _ => false
                 end).

(** The fields annotated [str] that are required. *)
Definition required_str_names : list (string * annotation * bool) -> list string :=
  names_where (fun a is_required =>
                 match a with a_str _ _ => is_required | _ => false end).

(** * text_trigger.py *)

(** ** The enumerations *)

Module TextOutputLanguage.
Inductive t : Type :=
| AUTO | EN | ES | FR | DE | PT | ZH | JA | KO | AR
| HE | RU | IT | NL | PL | TR | VI | TH | ID | HI.

Definition value_of (e : t) : string :=
  match e with
  | AUTO => "auto"
  | EN => "en" | ES => "es" | FR => "fr" | DE => "de" | PT => "pt"
  | ZH => "zh" | JA => "ja" | KO => "ko" | AR => "ar" | HE => "he"
  | RU => "ru" | IT => "it" | NL => "nl" | PL => "pl" | TR => "tr"
  | VI => "vi" | TH => "th" | ID => "id" | HI => "hi"
  end.

(** The members, in the order of the class body. *)
Definition members : list t :=
  [AUTO; EN; ES; FR; DE; PT; ZH; JA; KO; AR;
   HE; RU; IT; NL; PL; TR; VI; TH; ID; HI].

(** The language codes proper: every member but [AUTO]. *)
Definition codes : list string := value_of <$> tail members.

Definition validate : value -> result t := enum_ members value_of.
Definition dump (e : t) : value := VStr (value_of e).
End TextOutputLanguage.

Module TextInputType.
Inductive t : Type := WORKFLOW_RECORDING | TEACHING_SESSION.

Definition value_of (e : t) : string :=
  match e with
  | WORKFLOW_RECORDING => "workflow_recording"
  | TEACHING_SESSION => "teaching_session"
  end.

Definition members : list t := [WORKFLOW_RECORDING; TEACHING_SESSION].
Definition validate : value -> result t := enum_ members value_of.
Definition dump (e : t) : value := VStr (value_of e).
End TextInputType.

Module TextOutputFormat.
Inductive t : Type := WORKFLOW_GUIDE | KNOWLEDGE_BASE.

Definition value_of (e : t) : string :=
  match e with
  | WORKFLOW_GUIDE => "workflow_guide"
  | KNOWLEDGE_BASE => "knowledge_base"
  end.

Definition members : list t := [WORKFLOW_GUIDE; KNOWLEDGE_BASE].
Definition validate : value -> result t := enum_ members value_of.
Definition dump (e : t) : value := VStr (value_of e).
End TextOutputFormat.

Module TextVisibility.
Inductive t : Type := PRIVATE | ORG_VIEW | ORG_EDIT.

Definition value_of (e : t) : string :=
  match e with
  | PRIVATE => "private"
  | ORG_VIEW => "org:view"
  | ORG_EDIT => "org:edit"
  end.

Definition members : list t := [PRIVATE; ORG_VIEW; ORG_EDIT].
Definition validate : value -> result t := enum_ members value_of.
Definition dump (e : t) : value := VStr (value_of e).
End TextVisibility.

(** ** The models *)

Module TextSessionRef.
Record t : Type := Build {
  org_id : string;
  user_id : string;
  user_email : option string;
  session_id : string;
  content : string
}.

Definition model_config : ConfigDict := forbid_config.

Definition model_fields : list string :=
  ["org_id"; "user_id"; "user_email"; "session_id"; "content"].

Definition validate (d : dict) : result t :=
  with_errors
    (Build
       <$> required "org_id" (str_ (Some 1%Z) None) d
       <*> required "user_id" (str_ (Some 1%Z) None) d
       <*> with_default "user_email" (Optional str) None d
       <*> required "session_id" (str_ (Some 1%Z) None) d
       <*> required "content" (str_ (Some 50%Z) (Some 50000%Z)) d)
    (extra_errors model_config model_fields d).

Definition model_dump (m : t) : dict :=
  list_to_map
    [("org_id", VStr (org_id m));
     ("user_id", VStr (user_id m));
     ("user_email", dump_option VStr (user_email m));
     ("session_id", VStr (session_id m));
     ("content", VStr (content m))].

(** The declared constraints, on an instance. *)
Definition wf (m : t) : Prop :=
  (1 <= len (org_id m) /\
   1 <= len (user_id m) /\
   1 <= len (session_id m) /\
   50 <= len (content m) <= 50000)%Z.

(** The class body, as a table. *)
Definition fields : schema :=
  [("org_id", a_str (Some 1%Z) None, true);
   ("user_id", a_str (Some 1%Z) None, true);
   ("user_email", a_optional (a_str None None), false);
   ("session_id", a_str (Some 1%Z) None, true);
   ("content", a_str (Some 50%Z) (Some 50000%Z), true)].
End TextSessionRef.

Module TextProcessingOptions.
Record t : Type := Build {
  input_type : TextInputType.t;
  output_format : TextOutputFormat.t;
  model : string;
  output_language : TextOutputLanguage.t
}.

Definition model_config : ConfigDict := forbid_config.

Definition model_fields : list string :=
  ["input_type"; "output_format"; "model"; "output_language"].

Definition validate (d : dict) : result t :=
  with_errors
    (Build
       <$> required "input_type" TextInputType.validate d
       <*> required "output_format" TextOutputFormat.validate d
       <*> with_default "model" str "gemini-3-pro-preview" d
       <*> with_default "output_language" TextOutputLanguage.validate
             TextOutputLanguage.AUTO d)
    (extra_errors model_config model_fields d).

Definition model_dump (m : t) : dict :=
  list_to_map
    [("input_type", TextInputType.dump (input_type m));
     ("output_format", TextOutputFormat.dump (output_format m));
     ("model", VStr (model m));
     ("output_language", TextOutputLanguage.dump (output_language m))].

(** The class body, as a table. *)
Definition fields : schema :=
  [("input_type", a_one_of ["workflow_recording"; "teaching_session"], true);
   ("output_format", a_one_of ["workflow_guide"; "knowledge_base"], true);
   ("model", a_str None None, false);
   ("output_language",
     a_one_of ["auto"; "en"; "es"; "fr"; "de"; "pt"; "zh"; "ja"; "ko"; "ar";
               "he"; "ru"; "it"; "nl"; "pl"; "tr"; "vi"; "th"; "id"; "hi"],
     false)].
End TextProcessingOptions.

Module TextTrigger.
Record t : Type := Build {
  version : string;
  text_session : TextSessionRef.t;
  processing_options : TextProcessingOptions.t;
  visibility : TextVisibility.t;
  source : string;
  project_id : option string;
  name : option string
}.

Definition model_config : ConfigDict := forbid_config.

Definition model_fields : list string :=
  ["version"; "text_session"; "processing_options"; "visibility";
   "source"; "project_id"; "name"].

Definition validate (d : dict) : result t :=
  with_errors
    (Build
       <$> with_default "version" (Literal ["1.0"]) "1.0" d
       <*> required "text_session" (model_ TextSessionRef.validate) d
       <*> required "processing_options"
             (model_ TextProcessingOptions.validate) d
       <*> with_default "visibility" TextVisibility.validate
             TextVisibility.PRIVATE d
       <*> with_default "source" (Literal ["mcp-generate"]) "mcp-generate" d
       <*> with_default "project_id" (Optional str) None d
       <*> with_default "name" (Optional str) None d)
    (extra_errors model_config model_fields d).

Definition model_dump (m : t) : dict :=
  list_to_map
    [("version", VStr (version m));
     ("text_session", VDict (TextSessionRef.model_dump (text_session m)));
     ("processing_options",
       VDict (TextProcessingOptions.model_dump (processing_options m)));
     ("visibility", TextVisibility.dump (visibility m));
     ("source", VStr (source m));
     ("project_id", dump_option VStr (project_id m));
     ("name", dump_option VStr (name m))].

Definition wf (m : t) : Prop :=
  version m = "1.0" /\
  source m = "mcp-generate" /\
  TextSessionRef.wf (text_session m).

(** The class body, as a table. *)
Definition fields : schema :=
  [("version", a_one_of ["1.0"], false);
   ("text_session",
     a_model (describes TextSessionRef.model_config TextSessionRef.fields),
     true);
   ("processing_options",
     a_model (describes TextProcessingOptions.model_config
                TextProcessingOptions.fields),
     true);
   ("visibility", a_one_of ["private"; "org:view"; "org:edit"], false);
   ("source", a_one_of ["mcp-generate"], false);
   ("project_id", a_optional (a_str None None), false);
   ("name", a_optional (a_str None None), false)].
End TextTrigger.

Module TextGenerateResponse.
Record t : Type := Build {
  status : string;
  session_id : string;
  message : string;
  estimated_seconds : option Z
}.

Definition model_config : ConfigDict := forbid_config.

Definition model_fields : list string :=
  ["status"; "session_id"; "message"; "estimated_seconds"].

Definition validate `{LaxCoercions} (d : dict) : result t :=
  with_errors
    (Build
       <$> required "status" (Literal ["accepted"; "error"]) d
       <*> required "session_id" str d
       <*> required "message" str d
       <*> with_default "estimated_seconds" (Optional int_) None d)
    (extra_errors model_config model_fields d).

Definition model_dump (m : t) : dict :=
  list_to_map
    [("status", VStr (status m));
     ("session_id", VStr (session_id m));
     ("message", VStr (message m));
     ("estimated_seconds", dump_option VInt (estimated_seconds m))].

Definition wf (m : t) : Prop :=
  status m = "accepted" \/ status m = "error".

(** The class body, as a table. *)
Definition fields : schema :=
  [("status", a_one_of ["accepted"; "error"], true);
   ("session_id", a_str None None, true);
   ("message", a_str None None, true);
   ("estimated_seconds", a_optional a_int, false)].
End TextGenerateResponse.

(** * persistent_session.py *)

Module PersistentSession.
Record t : Type := Build {
  session_id : string;
  user_id : string;
  org_id : string;
  device_fingerprint : string;
  created_at : string;
  started_at : string;
  stopped_at : option string;
  completed_at : option string;
  updated_at : string;
  status : string;
  substatus : option string;
  presence_ticket_jti : string;
  processing_id : option string;
  firestore_path : option string;
  processing_time_seconds : option float;
  stopped_by_user_id : option string;
  stop_method : option string;
  error : option string;
  error_code : option string;
  retry_count : Z;
  version : Z;
  ttl_expires_at : string
}.

(** The class sets no [model_config]. *)
Definition model_config : ConfigDict := default_config.

Definition model_fields : list string :=
  ["session_id"; "user_id"; "org_id"; "device_fingerprint";
   "created_at"; "started_at"; "stopped_at"; "completed_at"; "updated_at";
   "status"; "substatus"; "presence_ticket_jti";
   "processing_id"; "firestore_path"; "processing_time_seconds";
   "stopped_by_user_id"; "stop_method";
   "error"; "error_code"; "retry_count"; "version"; "ttl_expires_at"].

Definition validate `{LaxCoercions} (d : dict) : result t :=
  with_errors
    (Build
       <$> required "session_id" str d
       <*> required "user_id" str d
       <*> required "org_id" str d
       <*> required "device_fingerprint" str d
       <*> required "created_at" str d
       <*> required "started_at" str d
       <*> with_default "stopped_at" (Optional str) None d
       <*> with_default "completed_at" (Optional str) None d
       <*> required "updated_at" str d
       <*> required "status" str d
       <*> with_default "substatus" (Optional str) None d
       <*> required "presence_ticket_jti" str d
       <*> with_default "processing_id" (Optional str) None d
       <*> with_default "firestore_path" (Optional str) None d
       <*> with_default "processing_time_seconds" (Optional float_) None d
       <*> with_default "stopped_by_user_id" (Optional str) None d
       <*> with_default "stop_method" (Optional str) None d
       <*> with_default "error" (Optional str) None d
       <*> with_default "error_code" (Optional str) None d
       <*> with_default "retry_count" int_ 0%Z d
       <*> with_default "version" int_ 1%Z d
       <*> required "ttl_expires_at" str d)
    (extra_errors model_config model_fields d).

Definition model_dump (m : t) : dict :=
  list_to_map
    [("session_id", VStr (session_id m));
     ("user_id", VStr (user_id m));
     ("org_id", VStr (org_id m));
     ("device_fingerprint", VStr (device_fingerprint m));
     ("created_at", VStr (created_at m));
     ("started_at", VStr (started_at m));
     ("stopped_at", dump_option VStr (stopped_at m));
     ("completed_at", dump_option VStr (completed_at m));
     ("updated_at", VStr (updated_at m));
     ("status", VStr (status m));
     ("substatus", dump_option VStr (substatus m));
     ("presence_ticket_jti", VStr (presence_ticket_jti m));
     ("processing_id", dump_option VStr (processing_id m));
     ("firestore_path", dump_option VStr (firestore_path m));
     ("processing_time_seconds",
       dump_option VFloat (processing_time_seconds m));
     ("stopped_by_user_id", dump_option VStr (stopped_by_user_id m));
     ("stop_method", dump_option VStr (stop_method m));
     ("error", dump_option VStr (error m));
     ("error_code", dump_option VStr (error_code m));
     ("retry_count", VInt (retry_count m));
     ("version", VInt (version m));
     ("ttl_expires_at", VStr (ttl_expires_at m))].
(** The fields the source marks [# ISO-8601]. *)
Definition datetime_fields : list string :=
  ["created_at"; "started_at"; "stopped_at"; "completed_at"; "updated_at";
   "ttl_expires_at"].

(** The class body, as a table. *)
Definition fields : schema :=
  [("session_id", a_str None None, true);
   ("user_id", a_str None None, true);
   ("org_id", a_str None None, true);
   ("device_fingerprint", a_str None None, true);
   ("created_at", a_str None None, true);
   ("started_at", a_str None None, true);
   ("stopped_at", a_optional (a_str None None), false);
   ("completed_at", a_optional (a_str None None), false);
   ("updated_at", a_str None None, true);
   ("status", a_str None None, true);
   ("substatus", a_optional (a_str None None), false);
   ("presence_ticket_jti", a_str None None, true);
   ("processing_id", a_optional (a_str None None), false);
   ("firestore_path", a_optional (a_str None None), false);
   ("processing_time_seconds", a_optional a_float, false);
   ("stopped_by_user_id", a_optional (a_str None None), false);
   ("stop_method", a_optional (a_str None None), false);
   ("error", a_optional (a_str None None), false);
   ("error_code", a_optional (a_str None None), false);
   ("retry_count", a_int, false);
   ("version", a_int, false);
   ("ttl_expires_at", a_str None None, true)].

(** Plain stores into the identity attributes, and the assignments
    [m.session_id = s], ... they implement. *)
Definition store_session_id (s : string) (m : t) : t :=
  let 'Build _ a2 a3 a4 a5 a6 a7 a8 a9 a10 a11 a12 a13 a14 a15 a16 a17 a18
         a19 a20 a21 a22 := m in
  Build s a2 a3 a4 a5 a6 a7 a8 a9 a10 a11 a12 a13 a14 a15 a16 a17 a18 a19
    a20 a21 a22.

Definition store_user_id (s : string) (m : t) : t :=
  let 'Build a1 _ a3 a4 a5 a6 a7 a8 a9 a10 a11 a12 a13 a14 a15 a16 a17 a18
         a19 a20 a21 a22 := m in
  Build a1 s a3 a4 a5 a6 a7 a8 a9 a10 a11 a12 a13 a14 a15 a16 a17 a18 a19
    a20 a21 a22.

Definition store_org_id (s : string) (m : t) : t :=
  let 'Build a1 a2 _ a4 a5 a6 a7 a8 a9 a10 a11 a12 a13 a14 a15 a16 a17 a18
         a19 a20 a21 a22 := m in
  Build a1 a2 s a4 a5 a6 a7 a8 a9 a10 a11 a12 a13 a14 a15 a16 a17 a18 a19
    a20 a21 a22.

Definition store_presence_ticket_jti (s : string) (m : t) : t :=
  let 'Build a1 a2 a3 a4 a5 a6 a7 a8 a9 a10 a11 _ a13 a14 a15 a16 a17 a18
         a19 a20 a21 a22 := m in
  Build a1 a2 a3 a4 a5 a6 a7 a8 a9 a10 a11 s a13 a14 a15 a16 a17 a18 a19
    a20 a21 a22.

Definition set_session_id (s : string) : t -> result t :=
  setattr model_config (store_session_id s).
Definition set_user_id (s : string) : t -> result t :=
  setattr model_config (store_user_id s).
Definition set_org_id (s : string) : t -> result t :=
  setattr model_config (store_org_id s).
Definition set_presence_ticket_jti (s : string) : t -> result t :=
  setattr model_config (store_presence_ticket_jti s).
End PersistentSession.

(** * Sample structures *)

Module Samples.
(** Fifty-two characters. *)
Definition content52 : string :=
  "Open the settings page, then press the save button.!".

Definition text_session (content : string) : dict :=
  list_to_map
    [("org_id", VStr "o1"); ("user_id", VStr "u1");
     ("session_id", VStr "s1"); ("content", VStr content)].

Definition processing_options : dict :=
  list_to_map
    [("input_type", VStr "workflow_recording");
     ("output_format", VStr "workflow_guide")].

(** A trigger with every defaulted field left out. *)
Definition trigger (content : string) : dict :=
  list_to_map
    [("text_session", VDict (text_session content));
     ("processing_options", VDict processing_options)].

Definition session_ref : TextSessionRef.t :=
  {| TextSessionRef.org_id := "o1";
     TextSessionRef.user_id := "u1";
     TextSessionRef.user_email := None;
     TextSessionRef.session_id := "s1";
     TextSessionRef.content := content52 |}.

Definition options : TextProcessingOptions.t :=
  {| TextProcessingOptions.input_type := TextInputType.WORKFLOW_RECORDING;
     TextProcessingOptions.output_format := TextOutputFormat.WORKFLOW_GUIDE;
     TextProcessingOptions.model := "gemini-3-pro-preview";
     TextProcessingOptions.output_language := TextOutputLanguage.AUTO |}.

Definition trigger_instance : TextTrigger.t :=
  {| TextTrigger.version := "1.0";
     TextTrigger.text_session := session_ref;
     TextTrigger.processing_options := options;
     TextTrigger.visibility := TextVisibility.PRIVATE;
     TextTrigger.source := "mcp-generate";
     TextTrigger.project_id := None;
     TextTrigger.name := None |}.

Definition response : TextGenerateResponse.t :=
  {| TextGenerateResponse.status := "accepted";
     TextGenerateResponse.session_id := "s1";
     TextGenerateResponse.message := "queued";
     TextGenerateResponse.estimated_seconds := None |}.

(** A session record with the required keys only. *)
Definition session : dict :=
  list_to_map
    [("session_id", VStr "s1"); ("user_id", VStr "u1");
     ("org_id", VStr "o1"); ("device_fingerprint", VStr "fp");
     ("created_at", VStr "2024-01-01T00:00:00+00:00");
     ("started_at", VStr "2024-01-01T00:00:01+00:00");
     ("updated_at", VStr "2024-01-01T00:00:02+00:00");
     ("status", VStr "recording");
     ("presence_ticket_jti", VStr "jti-1");
     ("ttl_expires_at", VStr "2024-02-01T00:00:00+00:00")].

(** The instance [session] constructs. *)
Definition session_instance : PersistentSession.t :=
  PersistentSession.Build "s1" "u1" "o1" "fp"
    "2024-01-01T00:00:00+00:00" "2024-01-01T00:00:01+00:00" None None
    "2024-01-01T00:00:02+00:00" "recording" None "jti-1"
    None None None None None None None 0 1 "2024-02-01T00:00:00+00:00".

(** A failed session whose retry counter is [-1]. *)
Definition failed_session : dict :=
  <["retry_count" := VInt (-1)]> (<["status" := VStr "failed"]> session).

(** A failed session without a retry counter. *)
Definition failed_session_no_count : dict :=
  <["status" := VStr "failed"]> session.

(** [-1.5] *)
Definition minus_one_and_a_half : float := S754_finite true 3 (-1).

(** A session that took a negative time to process. *)
Definition negative_time_session : dict :=
  <["processing_time_seconds" := VFloat minus_one_and_a_half]> session.

(** A session whose identity fields are all empty. *)
Definition anonymous_session : dict :=
  <["session_id" := VStr ""]>
    (<["user_id" := VStr ""]>
       (<["org_id" := VStr ""]>
          (<["presence_ticket_jti" := VStr ""]> session))).

(** The instances these three construct. *)
Definition failed_instance : PersistentSession.t :=
  PersistentSession.Build "s1" "u1" "o1" "fp"
    "2024-01-01T00:00:00+00:00" "2024-01-01T00:00:01+00:00" None None
    "2024-01-01T00:00:02+00:00" "failed" None "jti-1"
    None None None None None None None (-1) 1 "2024-02-01T00:00:00+00:00".

Definition negative_time_instance : PersistentSession.t :=
  PersistentSession.Build "s1" "u1" "o1" "fp"
    "2024-01-01T00:00:00+00:00" "2024-01-01T00:00:01+00:00" None None
    "2024-01-01T00:00:02+00:00" "recording" None "jti-1"
    None None (Some minus_one_and_a_half) None None None None 0 1
    "2024-02-01T00:00:00+00:00".

Definition anonymous_instance : PersistentSession.t :=
  PersistentSession.Build "" "" "" "fp"
    "2024-01-01T00:00:00+00:00" "2024-01-01T00:00:01+00:00" None None
    "2024-01-01T00:00:02+00:00" "recording" None ""
    None None None None None None None 0 1 "2024-02-01T00:00:00+00:00".
End Samples.

(** * Facts about the validation combinators *)

Section ResultFacts.
Context {A B : Type}.

Lemma fmap_Ok_inv (f : A -> B) (r : result A) (b : B) :
  f <$> r = Ok b -> exists a, r = Ok a /\ b = f a.
Proof. destruct r; [intros [= <-]; eauto | discriminate]. Qed.

Lemma ap_Ok_inv (rf : result (A -> B)) (ra : result A) (b : B) :
  rf <*> ra = Ok b -> exists f a, rf = Ok f /\ ra = Ok a /\ b = f a.
Proof.
  destruct rf, ra; try discriminate.
  intros [= <-]. eauto.
Qed.

Lemma with_errors_Ok_inv (r : result A) (more : list ErrorDetails) (a : A) :
  with_errors r more = Ok a -> r = Ok a /\ more = [].
Proof.
  destruct more; [done |].
  destruct r; discriminate.
Qed.

Lemma with_errors_cons_fails (r : result A) (e : ErrorDetails) more :
  fails (with_errors r (e :: more)).
Proof. by destruct r. Qed.

Lemma with_errors_fails (r : result A) more :
  fails r -> fails (with_errors r more).
Proof. destruct r, more; done. Qed.

Lemma ap_fails_r (rf : result (A -> B)) (ra : result A) :
  fails ra -> fails (rf <*> ra).
Proof. destruct rf, ra; done. Qed.

Lemma ap_fails_l (rf : result (A -> B)) (ra : result A) :
  fails rf -> fails (rf <*> ra).
Proof. destruct rf, ra; done. Qed.

Lemma fmap_fails (f : A -> B) (r : result A) : fails r -> fails (f <$> r).
Proof. by destruct r. Qed.

Lemma at_loc_Ok_inv (k : string) (r : result A) (a : A) :
  at_loc k r = Ok a -> r = Ok a.
Proof. by destruct r. Qed.

Lemma at_loc_fails (k : string) (r : result A) : fails r -> fails (at_loc k r).
Proof. by destruct r. Qed.
End ResultFacts.

Section FieldFacts.
Context {A : Type} (validator : value -> result A).
Implicit Types (d : gmap string value) (k : string) (v : value).

Lemma required_insert_eq k v d :
  required k validator (<[k:=v]> d) = at_loc k (validator v).
Proof. unfold required. by rewrite lookup_insert_eq. Qed.

Lemma required_insert_ne k k' v d :
  k <> k' -> required k' validator (<[k:=v]> d) = required k' validator d.
Proof. intros. unfold required. by rewrite lookup_insert_ne. Qed.

Lemma required_delete_ne k k' d :
  k <> k' -> required k' validator (delete k d) = required k' validator d.
Proof. intros. unfold required. by rewrite lookup_delete_ne. Qed.

Lemma required_Some k v d :
  d !! k = Some v -> required k validator d = at_loc k (validator v).
Proof. unfold required. by intros ->. Qed.

Lemma required_None_fails k d : d !! k = None -> fails (required k validator d).
Proof. unfold required. by intros ->. Qed.

Lemma required_Ok_inv k d a :
  required k validator d = Ok a ->
  exists v, d !! k = Some v /\ validator v = Ok a.
Proof.
  unfold required. destruct (d !! k) as [v|]; [| discriminate].
  intros ?%at_loc_Ok_inv. eauto.
Qed.

Lemma with_default_insert_eq k v (a0 : A) d :
  with_default k validator a0 (<[k:=v]> d) = at_loc k (validator v).
Proof. unfold with_default. by rewrite lookup_insert_eq. Qed.

Lemma with_default_insert_ne k k' v (a0 : A) d :
  k <> k' ->
  with_default k' validator a0 (<[k:=v]> d) = with_default k' validator a0 d.
Proof. intros. unfold with_default. by rewrite lookup_insert_ne. Qed.

Lemma with_default_delete_eq k (a0 : A) d :
  with_default k validator a0 (delete k d) = Ok a0.
Proof. unfold with_default. by rewrite lookup_delete_eq. Qed.

Lemma with_default_delete_ne k k' (a0 : A) d :
  k <> k' ->
  with_default k' validator a0 (delete k d) = with_default k' validator a0 d.
Proof. intros. unfold with_default. by rewrite lookup_delete_ne. Qed.

Lemma with_default_Some k v (a0 : A) d :
  d !! k = Some v -> with_default k validator a0 d = at_loc k (validator v).
Proof. unfold with_default. by intros ->. Qed.

Lemma with_default_None k (a0 : A) d :
  d !! k = None -> with_default k validator a0 d = Ok a0.
Proof. unfold with_default. by intros ->. Qed.
End FieldFacts.

Section ExtraFacts.
Implicit Types (d : gmap string value) (k : string) (fields : list string).

Lemma elem_of_extra_keys fields d k :
  k ∈ extra_keys fields d <-> is_Some (d !! k) /\ k ∉ fields.
Proof.
  unfold extra_keys.
  rewrite list_elem_of_filter, elem_of_elements, elem_of_dom. tauto.
Qed.

Lemma extra_errors_ignore fields d : extra_errors default_config fields d = [].
Proof. done. Qed.

(** A closed model is built only from inputs without undeclared keys. *)
Lemma extra_errors_forbid_nil fields d :
  extra_errors forbid_config fields d = [] <->
  forall k, is_Some (d !! k) -> k ∈ fields.
Proof.
  unfold extra_errors; simpl. split.
  - intros Hnil%fmap_nil_inv k Hk.
    destruct (decide (k ∈ fields)) as [|Hn]; [done |].
    assert (k ∈ extra_keys fields d) as Hin by by apply elem_of_extra_keys.
    rewrite Hnil in Hin. by apply elem_of_nil in Hin.
  - intros Hall. destruct (extra_keys fields d) as [|k l] eqn:E; [done |].
    assert (k ∈ extra_keys fields d) as Hin by (rewrite E; left).
    apply elem_of_extra_keys in Hin as [Hk Hn]. by apply Hall in Hk.
Qed.

(** With [extra='forbid'], one undeclared key is enough to fail. *)
Lemma forbid_undeclared_fails {A} (r : result A) fields d k :
  is_Some (d !! k) -> k ∉ fields ->
  fails (with_errors r (extra_errors forbid_config fields d)).
Proof.
  intros Hk Hn.
  destruct (extra_errors forbid_config fields d) as [|e more] eqn:E.
  - by pose proof (proj1 (extra_errors_forbid_nil fields d) E k Hk).
  - apply with_errors_cons_fails.
Qed.
End ExtraFacts.

Section AnnotationFacts.
Local Open Scope Z_scope.

Lemma str_bounded_Ok (lo hi : Z) (s : string) :
  lo <= len s <= hi -> str_ (Some lo) (Some hi) (VStr s) = Ok s.
Proof.
  intros [Hlo Hhi]. unfold str_.
  destruct (Z.ltb_spec (len s) lo); [lia |].
  destruct (Z.ltb_spec hi (len s)); [lia | done].
Qed.

Lemma str_min_Ok (lo : Z) (s : string) :
  lo <= len s -> str_ (Some lo) None (VStr s) = Ok s.
Proof.
  intros Hlo. unfold str_.
  destruct (Z.ltb_spec (len s) lo); [lia | done].
Qed.

Lemma str_out_of_bounds_fails (lo hi : Z) (s : string) :
  len s < lo \/ hi < len s -> fails (str_ (Some lo) (Some hi) (VStr s)).
Proof.
  intros Hout. unfold str_.
  destruct (Z.ltb_spec (len s) lo); [done |].
  destruct (Z.ltb_spec hi (len s)); [done | lia].
Qed.

(** What a constrained [str] field lets through. *)
Lemma str_Ok_inv (lo hi : option Z) (v : value) (s : string) :
  str_ lo hi v = Ok s ->
  v = VStr s /\
  (forall n, lo = Some n -> n <= len s) /\
  (forall n, hi = Some n -> len s <= n).
Proof.
  unfold str_. destruct v as [| | | |s'| |]; try discriminate.
  destruct lo as [n1|], hi as [n2|];
    repeat match goal with
           | |- context [Z.ltb ?a ?b] => destruct (Z.ltb_spec a b)
           end;
    try discriminate; intros [= ->];
    (split; [done |]); split; intros ? [= <-]; lia.
Qed.

Lemma Optional_dump {A} (validator : value -> result A) (dump : A -> value)
    (o : option A) :
  (forall a, validator (dump a) = Ok a) ->
  (forall a, dump a <> VNone) ->
  Optional validator (dump_option dump o) = Ok o.
Proof.
  intros Hv Hd. destruct o as [a|]; [| done]. simpl.
  unfold Optional. specialize (Hd a).
  destruct (dump a) eqn:E; [done | ..]; by rewrite <- E, Hv.
Qed.

Lemma Optional_str_dump (o : option string) :
  Optional str (dump_option VStr o) = Ok o.
Proof. by apply Optional_dump. Qed.

Lemma Optional_int_dump `{LaxCoercions} (o : option Z) :
  Optional int_ (dump_option VInt o) = Ok o.
Proof. by apply Optional_dump. Qed.

Lemma Optional_float_dump `{LaxCoercions} (o : option float) :
  Optional float_ (dump_option VFloat o) = Ok o.
Proof. by apply Optional_dump. Qed.
End AnnotationFacts.

Section EnumFacts.
Context {E : Type} (members : list E) (value_of : E -> string).

Lemma enum_not_member_fails (s : string) :
  s ∉ value_of <$> members -> fails (enum_ members value_of (VStr s)).
Proof.
  unfold enum_. induction members as [|e l IH]; [done |].
  rewrite fmap_cons, not_elem_of_cons. intros [Hne Hl]. simpl.
  rewrite bool_decide_eq_false_2 by done. by apply IH.
Qed.

Lemma enum_member_Ok (s : string) :
  s ∈ value_of <$> members ->
  exists e, enum_ members value_of (VStr s) = Ok e /\ value_of e = s.
Proof.
  unfold enum_. induction members as [|e l IH].
  - intros []%elem_of_nil.
  - rewrite fmap_cons, elem_of_cons. intros Hin. simpl.
    destruct (decide (value_of e = s)) as [Heq|Hne].
    + rewrite bool_decide_eq_true_2 by done. eauto.
    + rewrite bool_decide_eq_false_2 by done.
      destruct Hin as [->|Hin]; [done | by apply IH].
Qed.

Lemma enum_Ok_inv (v : value) (e : E) :
  enum_ members value_of v = Ok e -> v = VStr (value_of e) /\ e ∈ members.
Proof.
  unfold enum_. destruct v as [| | | |s| |]; try discriminate.
  destruct (find _ members) as [e'|] eqn:Hfind; [| discriminate].
  intros [= ->]. apply find_some in Hfind as [Hin Heq].
  apply bool_decide_eq_true in Heq as <-.
  by rewrite <- list_elem_of_In in Hin.
Qed.

(** Any input that is not the value of a member is refused. *)
Lemma enum_other_fails (v : value) :
  (forall s, s ∈ value_of <$> members -> v <> VStr s) ->
  fails (enum_ members value_of v).
Proof.
  intros Hv. destruct (enum_ members value_of v) as [e|] eqn:Hr; [| done].
  apply enum_Ok_inv in Hr as [-> Hin].
  destruct (Hv (value_of e)); [| done]. by apply list_elem_of_fmap_2.
Qed.
End EnumFacts.

Lemma Literal_Ok_inv (allowed : list string) (v : value) (s : string) :
  Literal allowed v = Ok s -> v = VStr s /\ s ∈ allowed.
Proof.
  unfold Literal. destruct v as [| | | |s'| |]; try discriminate.
  case_bool_decide; [| discriminate]. by intros [= <-].
Qed.

Lemma Literal_member (allowed : list string) (s : string) :
  s ∈ allowed -> Literal allowed (VStr s) = Ok s.
Proof. intros Hin. unfold Literal. by rewrite bool_decide_eq_true_2. Qed.

(** ** Proof automation for models *)

(** Replace each field of a model by the validation of the value that a
    concrete key/value structure holds under its key. *)
Ltac lookup_fields :=
  repeat first
    [ erewrite required_Some by reflexivity
    | erewrite with_default_Some by reflexivity
    | rewrite with_default_None by reflexivity ];
  cbn [fst snd].

(** From a successful construction to the success of each field. *)
Ltac invert_validate H :=
  let Hx := fresh "Hextra" in
  apply with_errors_Ok_inv in H as [H Hx];
  repeat (let f := fresh "f" in let x := fresh "x" in
          let Hf := fresh "Hfield" in
          apply ap_Ok_inv in H as (f & x & H & Hf & ->));
  (let x := fresh "x" in let Hf := fresh "Hfield" in
   apply fmap_Ok_inv in H as (x & Hf & ->)).

(** Use the fields already known to validate. *)
Ltac rewrite_fields :=
  repeat match goal with
         | H : required _ _ _ = Ok _ |- _ => rewrite H; clear H
         | H : with_default _ _ _ _ = Ok _ |- _ => rewrite H; clear H
         end.

(** * The models: serialization and construction *)

Lemma round_trips_intro {T} (validate : gmap string value -> result T)
    (model_dump : T -> gmap string value) (m : T) :
  validate (model_dump m) = Ok m -> round_trips validate model_dump m.
Proof. intros Hv. split; [done |]. by rewrite Hv. Qed.

Section Enumerations.
Lemma TextOutputLanguage_dump_validate e :
  TextOutputLanguage.validate (TextOutputLanguage.dump e) = Ok e.
Proof. by destruct e. Qed.

Lemma TextInputType_dump_validate e :
  TextInputType.validate (TextInputType.dump e) = Ok e.
Proof. by destruct e. Qed.

Lemma TextOutputFormat_dump_validate e :
  TextOutputFormat.validate (TextOutputFormat.dump e) = Ok e.
Proof. by destruct e. Qed.

Lemma TextVisibility_dump_validate e :
  TextVisibility.validate (TextVisibility.dump e) = Ok e.
Proof. by destruct e. Qed.
End Enumerations.

Section Models.
Context `{LaxCoercions}.

(** A serialized instance has the declared keys and no other. *)
Lemma TextSessionRef_dump_closed m :
  extra_errors TextSessionRef.model_config TextSessionRef.model_fields
    (TextSessionRef.model_dump m) = [].
Proof. destruct m. by vm_compute. Qed.

Lemma TextProcessingOptions_dump_closed m :
  extra_errors TextProcessingOptions.model_config
    TextProcessingOptions.model_fields
    (TextProcessingOptions.model_dump m) = [].
Proof. destruct m. by vm_compute. Qed.

Lemma TextTrigger_dump_closed m :
  extra_errors TextTrigger.model_config TextTrigger.model_fields
    (TextTrigger.model_dump m) = [].
Proof. destruct m. by vm_compute. Qed.

Lemma TextGenerateResponse_dump_closed m :
  extra_errors TextGenerateResponse.model_config
    TextGenerateResponse.model_fields
    (TextGenerateResponse.model_dump m) = [].
Proof. destruct m. by vm_compute. Qed.

Lemma TextSessionRef_dump_validate m :
  TextSessionRef.wf m ->
  TextSessionRef.validate (TextSessionRef.model_dump m) = Ok m.
Proof.
  intros (Ho & Hu & Hs & Hc).
  unfold TextSessionRef.validate. rewrite TextSessionRef_dump_closed.
  unfold TextSessionRef.model_dump. lookup_fields.
  rewrite !str_min_Ok, str_bounded_Ok, Optional_str_dump by done.
  by destruct m.
Qed.

Lemma TextSessionRef_validate_wf d m :
  TextSessionRef.validate d = Ok m -> TextSessionRef.wf m.
Proof.
  intros Hv. unfold TextSessionRef.validate in Hv. invert_validate Hv.
  repeat match goal with
         | H : required _ _ _ = Ok _ |- _ =>
             apply required_Ok_inv in H as (? & _ & (_ & ? & ?)%str_Ok_inv)
         end.
  unfold TextSessionRef.wf; simpl. naive_solver.
Qed.

Lemma TextProcessingOptions_dump_validate m :
  TextProcessingOptions.validate (TextProcessingOptions.model_dump m) = Ok m.
Proof.
  unfold TextProcessingOptions.validate.
  rewrite TextProcessingOptions_dump_closed.
  unfold TextProcessingOptions.model_dump. lookup_fields.
  rewrite TextInputType_dump_validate, TextOutputFormat_dump_validate,
    TextOutputLanguage_dump_validate.
  by destruct m.
Qed.

Lemma TextTrigger_dump_validate m :
  TextTrigger.wf m -> TextTrigger.validate (TextTrigger.model_dump m) = Ok m.
Proof.
  intros (Hv & Hs & Hts).
  unfold TextTrigger.validate. rewrite TextTrigger_dump_closed.
  unfold TextTrigger.model_dump. lookup_fields. cbn [model_].
  rewrite TextSessionRef_dump_validate, TextProcessingOptions_dump_validate,
    TextVisibility_dump_validate, !Optional_str_dump by done.
  rewrite Hv, Hs. destruct m; simpl in *. by subst.
Qed.

Lemma TextTrigger_validate_wf d m :
  TextTrigger.validate d = Ok m -> TextTrigger.wf m.
Proof.
  intros Hv. unfold TextTrigger.validate in Hv. invert_validate Hv.
  unfold TextTrigger.wf; simpl. split; [| split].
  - unfold with_default in *. destruct (d !! "version"); [| congruence].
    match goal with
    | H : at_loc "version" _ = Ok _ |- _ =>
        apply at_loc_Ok_inv, Literal_Ok_inv in H as [_ Hmem]
    end.
    by apply list_elem_of_singleton in Hmem.
  - unfold with_default in *. destruct (d !! "source"); [| congruence].
    match goal with
    | H : at_loc "source" _ = Ok _ |- _ =>
        apply at_loc_Ok_inv, Literal_Ok_inv in H as [_ Hmem]
    end.
    by apply list_elem_of_singleton in Hmem.
  - match goal with
    | H : required "text_session" _ _ = Ok _ |- _ =>
        apply required_Ok_inv in H as ([] & _ & Hts); try discriminate
    end.
    by eapply TextSessionRef_validate_wf.
Qed.

Lemma TextGenerateResponse_dump_validate m :
  TextGenerateResponse.wf m ->
  TextGenerateResponse.validate (TextGenerateResponse.model_dump m) = Ok m.
Proof.
  intros Hs.
  unfold TextGenerateResponse.validate.
  rewrite TextGenerateResponse_dump_closed.
  unfold TextGenerateResponse.model_dump. lookup_fields.
  rewrite Literal_member, Optional_int_dump
    by (destruct Hs as [Hs|Hs]; rewrite Hs; repeat constructor).
  by destruct m.
Qed.

Lemma TextGenerateResponse_validate_wf d m :
  TextGenerateResponse.validate d = Ok m -> TextGenerateResponse.wf m.
Proof.
  intros Hv. unfold TextGenerateResponse.validate in Hv. invert_validate Hv.
  match goal with
  | H : required "status" _ _ = Ok _ |- _ =>
      apply required_Ok_inv in H as (? & _ & [_ Hmem]%Literal_Ok_inv)
  end.
  unfold TextGenerateResponse.wf; simpl.
  rewrite !elem_of_cons, elem_of_nil in Hmem. tauto.
Qed.

Lemma PersistentSession_dump_validate m :
  PersistentSession.validate (PersistentSession.model_dump m) = Ok m.
Proof.
  unfold PersistentSession.validate. rewrite extra_errors_ignore.
  unfold PersistentSession.model_dump. lookup_fields.
  rewrite !Optional_str_dump, Optional_float_dump.
  by destruct m.
Qed.
End Models.

(** Construction from a structure in which one key of a valid session
    record was put or removed: the other fields validate as before. *)
Ltac session_put_field Hv :=
  unfold PersistentSession.validate in *;
  invert_validate Hv;
  rewrite ?extra_errors_ignore;
  rewrite ?required_insert_eq, ?with_default_insert_eq,
    ?with_default_delete_eq;
  rewrite ?required_insert_ne, ?with_default_insert_ne,
    ?required_delete_ne, ?with_default_delete_ne by done;
  rewrite_fields.

Lemma required_str_Ok_inv (k : string) (d : gmap string value) (s : string) :
  required k str d = Ok s -> d !! k = Some (VStr s).
Proof. intros (v & Hk & (-> & _)%str_Ok_inv)%required_Ok_inv. done. Qed.

Lemma extra_errors_insert_declared (fields : list string)
    (d : gmap string value) (k : string) (v : value) :
  k ∈ fields ->
  extra_errors forbid_config fields d = [] ->
  extra_errors forbid_config fields (<[k:=v]> d) = [].
Proof.
  rewrite !extra_errors_forbid_nil. intros Hk Hd k' Hk'.
  destruct (decide (k = k')) as [<-|Hne]; [done |].
  rewrite lookup_insert_ne in Hk' by done. by apply Hd.
Qed.

(** * The validators at work *)

(** Every missing field is reported. *)
Example empty_response_errors (L : LaxCoercions) :
  TextGenerateResponse.validate ∅ =
  ValidationError
    [{| type := missing; loc := ["status"] |};
     {| type := missing; loc := ["session_id"] |};
     {| type := missing; loc := ["message"] |}].
Proof. reflexivity. Qed.

(** A content below the lower bound. *)
Example short_content_error :
  TextSessionRef.validate (Samples.text_session "too short") =
  ValidationError [{| type := string_too_short; loc := ["content"] |}].
Proof. vm_compute. reflexivity. Qed.

(** An error in an embedded model is located under the embedding field,
    and an enumeration refuses what is not a member's value. *)
Example nested_errors :
  TextTrigger.validate
    (<["visibility" := VStr "public"]>
       (Samples.trigger "too short")) =
  ValidationError
    [{| type := string_too_short; loc := ["text_session"; "content"] |};
     {| type := enum; loc := ["visibility"] |}].
Proof. vm_compute. reflexivity. Qed.

(** An undeclared key in a closed schema. *)
Example undeclared_key_error :
  TextProcessingOptions.validate
    (<["priority" := VInt 1]> Samples.processing_options) =
  ValidationError [{| type := extra_forbidden; loc := ["priority"] |}].
Proof. vm_compute. reflexivity. Qed.

(** The sample session record constructs, with the defaults filled in. *)
Example session_constructs_any (L : LaxCoercions) :
  PersistentSession.validate Samples.session = Ok Samples.session_instance.
Proof. vm_compute. reflexivity. Qed.

(** A number is not a string, and [None] is not an integer. *)
Example type_errors (L : LaxCoercions) :
  PersistentSession.validate
    (<["status" := VInt 3]> (<["retry_count" := VNone]> Samples.session)) =
  ValidationError
    [{| type := string_type; loc := ["status"] |};
     {| type := int_type; loc := ["retry_count"] |}].
Proof. vm_compute. reflexivity. Qed.

(** * Structures that satisfy the declared constraints *)

Section Reads.
Context (b : bool).

Lemma admits_str lo hi v :
  admits b (a_str lo hi) v -> reads b (str_ lo hi) VStr v.
Proof.
  intros (s & -> & Hlo & Hhi). exists s. split; [| done].
  unfold str_. destruct lo as [n1|], hi as [n2|];
    repeat match goal with
           | |- context [Z.ltb ?x ?y] => destruct (Z.ltb_spec x y)
           end; try done.
  all: try (specialize (Hlo _ eq_refl)); try (specialize (Hhi _ eq_refl)); lia.
Qed.

Lemma admits_int `{LaxCoercions} v : admits b a_int v -> reads b int_ VInt v.
Proof. intros (z & ->). by exists z. Qed.

Lemma admits_float `{LaxCoercions} v :
  admits b a_float v -> reads b float_ VFloat v.
Proof. intros (f & ->). by exists f. Qed.

Lemma admits_enum {E} (members : list E) (value_of : E -> string) v :
  admits b (a_one_of (value_of <$> members)) v ->
  reads b (enum_ members value_of) (fun e => VStr (value_of e)) v.
Proof.
  intros (s & -> & Hs). apply (enum_member_Ok members value_of) in Hs as (e & He & <-).
  by exists e.
Qed.

Lemma admits_literal allowed v :
  admits b (a_one_of allowed) v -> reads b (Literal allowed) VStr v.
Proof.
  intros (s & -> & Hs). exists s. by rewrite Literal_member.
Qed.

Lemma admits_optional {A} a (validator : value -> result A) dump v :
  (forall x, dump x <> VNone) ->
  (forall v, admits b a v -> reads b validator dump v) ->
  admits b (a_optional a) v ->
  reads b (Optional validator) (dump_option dump) v.
Proof.
  intros Hd Ha [->|Hv]; [by exists None |].
  destruct v; [by exists None | ..];
    apply Ha in Hv as (x & Hx & Hdump); exists (Some x);
    (split; [by (unfold Optional; rewrite Hx) | done]).
Qed.
End Reads.

Section FieldReads.
Context {A : Type} (b : bool) (validator : value -> result A)
  (dump : A -> value) (d : gmap string value) (k : string).

Lemma required_reads (is_required : bool) a :
  match d !! k with
  | Some v => admits b a v
  | None => b = false /\ is_required = false
  end ->
  is_required = true ->
  (forall v, admits b a v -> reads b validator dump v) ->
  field_reads b (required k validator d) dump d k.
Proof.
  intros Hk -> Ha. unfold field_reads, required.
  destruct (d !! k) as [v|]; [| by destruct Hk].
  apply Ha in Hk as (x & Hx & Hdump). exists x. rewrite Hx.
  split; [done |]. by intros ->%Hdump.
Qed.

Lemma with_default_reads (is_required : bool) a (default : A) :
  match d !! k with
  | Some v => admits b a v
  | None => b = false /\ is_required = false
  end ->
  (forall v, admits b a v -> reads b validator dump v) ->
  field_reads b (with_default k validator default d) dump d k.
Proof.
  intros Hk Ha. unfold field_reads, with_default.
  destruct (d !! k) as [v|].
  - apply Ha in Hk as (x & Hx & Hdump). exists x. rewrite Hx.
    split; [done |]. by intros ->%Hdump.
  - destruct Hk as [-> _]. by exists default.
Qed.
End FieldReads.

Lemma extra_keys_nil (names : list string) (d : gmap string value) :
  extra_keys names d = [] <-> forall k, is_Some (d !! k) -> k ∈ names.
Proof.
  split.
  - intros Hnil k Hk.
    destruct (decide (k ∈ names)) as [|Hn]; [done |].
    assert (k ∈ extra_keys names d) as Hin by by apply elem_of_extra_keys.
    rewrite Hnil in Hin. by apply elem_of_nil in Hin.
  - intros Hall. destruct (extra_keys names d) as [|k l] eqn:E; [done |].
    assert (k ∈ extra_keys names d) as Hin by (rewrite E; left).
    apply elem_of_extra_keys in Hin as [Hk Hn]. by apply Hall in Hk.
Qed.

Lemma dict_eq_on (names : list string) (d1 d2 : gmap string value) :
  (forall k, is_Some (d1 !! k) -> k ∈ names) ->
  (forall k, is_Some (d2 !! k) -> k ∈ names) ->
  Forall (fun k => d1 !! k = d2 !! k) names ->
  d1 = d2.
Proof.
  intros H1 H2 Hall. apply map_eq. intros k.
  destruct (decide (k ∈ names)) as [Hk|Hk].
  - by apply (proj1 (Forall_forall _ _) Hall).
  - transitivity (@None value); [| symmetry]; apply eq_None_not_Some; naive_solver.
Qed.

Ltac split_fields H :=
  repeat match type of H with
         | Forall _ (_ :: _) =>
             let Hf := fresh "Hdecl" in
             apply Forall_cons in H as [Hf H]
         end;
  clear H.


Section ReadsInstances.
Context (b : bool) `{LaxCoercions}.

Lemma admits_optional_str v :
  admits b (a_optional (a_str None None)) v ->
  reads b (Optional str) (dump_option VStr) v.
Proof. apply admits_optional; [done |]. apply admits_str. Qed.

Lemma admits_optional_int v :
  admits b (a_optional a_int) v ->
  reads b (Optional int_) (dump_option VInt) v.
Proof. apply admits_optional; [done |]. apply admits_int. Qed.

Lemma admits_optional_float v :
  admits b (a_optional a_float) v ->
  reads b (Optional float_) (dump_option VFloat) v.
Proof. apply admits_optional; [done |]. apply admits_float. Qed.

Lemma admits_TextInputType v :
  admits b (a_one_of ["workflow_recording"; "teaching_session"]) v ->
  reads b TextInputType.validate TextInputType.dump v.
Proof. apply (admits_enum b TextInputType.members TextInputType.value_of). Qed.

Lemma admits_TextOutputFormat v :
  admits b (a_one_of ["workflow_guide"; "knowledge_base"]) v ->
  reads b TextOutputFormat.validate TextOutputFormat.dump v.
Proof. apply (admits_enum b TextOutputFormat.members TextOutputFormat.value_of). Qed.

Lemma admits_TextVisibility v :
  admits b (a_one_of ["private"; "org:view"; "org:edit"]) v ->
  reads b TextVisibility.validate TextVisibility.dump v.
Proof. apply (admits_enum b TextVisibility.members TextVisibility.value_of). Qed.

Lemma admits_TextOutputLanguage v :
  admits b
    (a_one_of ["auto"; "en"; "es"; "fr"; "de"; "pt"; "zh"; "ja"; "ko"; "ar";
               "he"; "ru"; "it"; "nl"; "pl"; "tr"; "vi"; "th"; "id"; "hi"])
    v ->
  reads b TextOutputLanguage.validate TextOutputLanguage.dump v.
Proof.
  apply (admits_enum b TextOutputLanguage.members TextOutputLanguage.value_of).
Qed.

Lemma admits_model {T} cfg fields (validate : gmap string value -> result T)
    (model_dump : T -> gmap string value) v :
  (forall d, describes cfg fields b d ->
             exists m, validate d = Ok m /\ (b = true -> model_dump m = d)) ->
  admits b (a_model (describes cfg fields)) v ->
  reads b (model_ validate) (fun m => VDict (model_dump m)) v.
Proof.
  intros Hmodel (d & -> & (m & Hm & Hdump)%Hmodel).
  exists m. split; [done |]. by intros ->%Hdump.
Qed.
End ReadsInstances.

Create HintDb reads discriminated.
#[global] Hint Resolve admits_str admits_int admits_float admits_literal
  admits_optional_str admits_optional_int admits_optional_float
  admits_TextInputType admits_TextOutputFormat admits_TextVisibility
  admits_TextOutputLanguage : reads.

(** Read every field of the model in the goal from the declarations. *)
Ltac read_fields :=
  repeat match goal with
         | H : match ?d !! ?k with _ => _ end
           |- context [required ?k ?validator ?d] =>
             eapply (required_reads _ validator _ d k) in H;
             [ let x := fresh "x" in
               let Hd := fresh "Hdump" in
               destruct H as (x & -> & Hd)
             | reflexivity
             | intros ?; solve [eauto with reads] ]
         | H : match ?d !! ?k with _ => _ end
           |- context [with_default ?k ?validator ?default ?d] =>
             eapply (with_default_reads _ validator _ d k) in H;
             [ let x := fresh "x" in
               let Hd := fresh "Hdump" in
               destruct H as (x & -> & Hd)
             | intros ?; solve [eauto with reads] ]
         end.

Ltac same_lookups :=
  repeat (apply Forall_cons; split;
          [ match goal with
            | H : true = true -> ?d !! ?k = _ |- _ !! ?k = ?d !! ?k =>
                rewrite (H eq_refl); reflexivity
            end |]);
  apply Forall_nil_2.

Lemma TextSessionRef_describes b d :
  describes TextSessionRef.model_config TextSessionRef.fields b d ->
  exists m, TextSessionRef.validate d = Ok m /\
            (b = true -> TextSessionRef.model_dump m = d).
Proof.
  intros [Hclosed Hfields]. unfold TextSessionRef.fields in Hfields.
  split_fields Hfields.
  unfold TextSessionRef.validate, TextSessionRef.model_config in *. read_fields.
  rewrite (proj2 (extra_errors_forbid_nil TextSessionRef.model_fields d))
    by (apply Hclosed; by right).
  eexists. split; [reflexivity |]. intros ->.
  apply (dict_eq_on TextSessionRef.model_fields).
  - apply extra_errors_forbid_nil, TextSessionRef_dump_closed.
  - apply Hclosed. by left.
  - unfold TextSessionRef.model_fields. same_lookups.
Qed.

Section ModelsDescribed.
Context (b : bool) `{LaxCoercions}.

Lemma TextProcessingOptions_describes d :
  describes TextProcessingOptions.model_config TextProcessingOptions.fields b d ->
  exists m, TextProcessingOptions.validate d = Ok m /\
            (b = true -> TextProcessingOptions.model_dump m = d).
Proof.
  intros [Hclosed Hfields]. unfold TextProcessingOptions.fields in Hfields.
  split_fields Hfields.
  unfold TextProcessingOptions.validate, TextProcessingOptions.model_config in *.
  read_fields.
  rewrite (proj2 (extra_errors_forbid_nil TextProcessingOptions.model_fields d))
    by (apply Hclosed; by right).
  eexists. split; [reflexivity |]. intros ->.
  apply (dict_eq_on TextProcessingOptions.model_fields).
  - apply extra_errors_forbid_nil, TextProcessingOptions_dump_closed.
  - apply Hclosed. by left.
  - unfold TextProcessingOptions.model_fields. same_lookups.
Qed.

Lemma admits_TextSessionRef v :
  admits b
    (a_model (describes TextSessionRef.model_config TextSessionRef.fields)) v ->
  reads b (model_ TextSessionRef.validate)
    (fun m => VDict (TextSessionRef.model_dump m)) v.
Proof. apply admits_model, TextSessionRef_describes. Qed.

Lemma admits_TextProcessingOptions v :
  admits b
    (a_model (describes TextProcessingOptions.model_config
                TextProcessingOptions.fields)) v ->
  reads b (model_ TextProcessingOptions.validate)
    (fun m => VDict (TextProcessingOptions.model_dump m)) v.
Proof. apply admits_model, TextProcessingOptions_describes. Qed.

Hint Resolve admits_TextSessionRef admits_TextProcessingOptions : reads.

Lemma TextTrigger_describes d :
  describes TextTrigger.model_config TextTrigger.fields b d ->
  exists m, TextTrigger.validate d = Ok m /\
            (b = true -> TextTrigger.model_dump m = d).
Proof.
  intros [Hclosed Hfields]. unfold TextTrigger.fields in Hfields.
  split_fields Hfields.
  unfold TextTrigger.validate, TextTrigger.model_config in *.
  read_fields.
  rewrite (proj2 (extra_errors_forbid_nil TextTrigger.model_fields d))
    by (apply Hclosed; by right).
  eexists. split; [reflexivity |]. intros ->.
  apply (dict_eq_on TextTrigger.model_fields).
  - apply extra_errors_forbid_nil, TextTrigger_dump_closed.
  - apply Hclosed. by left.
  - unfold TextTrigger.model_fields. same_lookups.
Qed.

Lemma TextGenerateResponse_describes d :
  describes TextGenerateResponse.model_config TextGenerateResponse.fields b d ->
  exists m, TextGenerateResponse.validate d = Ok m /\
            (b = true -> TextGenerateResponse.model_dump m = d).
Proof.
  intros [Hclosed Hfields]. unfold TextGenerateResponse.fields in Hfields.
  split_fields Hfields.
  unfold TextGenerateResponse.validate, TextGenerateResponse.model_config in *.
  read_fields.
  rewrite (proj2 (extra_errors_forbid_nil TextGenerateResponse.model_fields d))
    by (apply Hclosed; by right).
  eexists. split; [reflexivity |]. intros ->.
  apply (dict_eq_on TextGenerateResponse.model_fields).
  - apply extra_errors_forbid_nil, TextGenerateResponse_dump_closed.
  - apply Hclosed. by left.
  - unfold TextGenerateResponse.model_fields. same_lookups.
Qed.

Lemma PersistentSession_dump_keys m :
  extra_keys PersistentSession.model_fields (PersistentSession.model_dump m) = [].
Proof. destruct m. by vm_compute. Qed.

Lemma PersistentSession_describes d :
  describes PersistentSession.model_config PersistentSession.fields b d ->
  exists m, PersistentSession.validate d = Ok m /\
            (b = true -> PersistentSession.model_dump m = d).
Proof.
  intros [Hclosed Hfields]. unfold PersistentSession.fields in Hfields.
  split_fields Hfields.
  unfold PersistentSession.validate. rewrite extra_errors_ignore.
  read_fields.
  eexists. split; [reflexivity |]. intros ->.
  apply (dict_eq_on PersistentSession.model_fields).
  - apply extra_keys_nil, PersistentSession_dump_keys.
  - apply Hclosed. by left.
  - unfold PersistentSession.model_fields. same_lookups.
Qed.
End ModelsDescribed.

Lemma described_lookup {P : value -> Prop} {Q : Prop}
    (d : gmap string value) (k : string) (v : value) :
  d !! k = Some v -> P v ->
  match d !! k with Some v => P v | None => Q end.
Proof. by intros ->. Qed.

Lemma str_admitted b lo hi s :
  (forall n, lo = Some n -> n <= len s)%Z ->
  (forall n, hi = Some n -> len s <= n)%Z ->
  admits b (a_str lo hi) (VStr s).
Proof. intros. by exists s. Qed.

Lemma plain_str_admitted b s : admits b (a_str None None) (VStr s).
Proof. by apply str_admitted. Qed.

Lemma optional_admitted {A} b a (dump : A -> value) o :
  (forall x, admits b a (dump x)) ->
  admits b (a_optional a) (dump_option dump o).
Proof. intros Ha. destruct o; [right; apply Ha | by left]. Qed.

Lemma enum_admitted {E} b (members : list E) (value_of : E -> string) e :
  e ∈ members ->
  admits b (a_one_of (value_of <$> members)) (VStr (value_of e)).
Proof. intros He. eexists. split; [done |]. by apply list_elem_of_fmap_2. Qed.

Lemma TextInputType_admitted b e :
  admits b (a_one_of ["workflow_recording"; "teaching_session"])
    (TextInputType.dump e).
Proof.
  apply (enum_admitted b TextInputType.members TextInputType.value_of).
  destruct e; repeat constructor.
Qed.

Lemma TextOutputFormat_admitted b e :
  admits b (a_one_of ["workflow_guide"; "knowledge_base"])
    (TextOutputFormat.dump e).
Proof.
  apply (enum_admitted b TextOutputFormat.members TextOutputFormat.value_of).
  destruct e; repeat constructor.
Qed.

Lemma TextVisibility_admitted b e :
  admits b (a_one_of ["private"; "org:view"; "org:edit"])
    (TextVisibility.dump e).
Proof.
  apply (enum_admitted b TextVisibility.members TextVisibility.value_of).
  destruct e; repeat constructor.
Qed.

Lemma TextOutputLanguage_admitted b e :
  admits b
    (a_one_of ["auto"; "en"; "es"; "fr"; "de"; "pt"; "zh"; "ja"; "ko"; "ar";
               "he"; "ru"; "it"; "nl"; "pl"; "tr"; "vi"; "th"; "id"; "hi"])
    (TextOutputLanguage.dump e).
Proof.
  apply (enum_admitted b TextOutputLanguage.members TextOutputLanguage.value_of).
  destruct e; repeat constructor.
Qed.

Lemma literal_admitted b allowed s :
  s ∈ allowed -> admits b (a_one_of allowed) (VStr s).
Proof. intros. by exists s. Qed.

Create HintDb admitted discriminated.
#[global] Hint Resolve plain_str_admitted TextInputType_admitted
  TextOutputFormat_admitted TextVisibility_admitted
  TextOutputLanguage_admitted : admitted.

Ltac dump_described :=
  repeat (apply Forall_cons; split;
          [ eapply described_lookup; [reflexivity |]; cbn [fst snd] |]);
  [.. | apply Forall_nil_2].

Lemma TextSessionRef_dump_described m :
  TextSessionRef.wf m ->
  describes TextSessionRef.model_config TextSessionRef.fields true
    (TextSessionRef.model_dump m).
Proof.
  intros (Ho & Hu & Hs & Hc). split.
  - intros _. apply extra_errors_forbid_nil, TextSessionRef_dump_closed.
  - unfold TextSessionRef.fields, TextSessionRef.model_dump. dump_described.
    + apply str_admitted; [by intros ? [= <-] | done].
    + apply str_admitted; [by intros ? [= <-] | done].
    + apply optional_admitted. auto with admitted.
    + apply str_admitted; [by intros ? [= <-] | done].
    + apply str_admitted; intros ? [= <-]; lia.
Qed.

Lemma PersistentSession_dump_described m :
  describes PersistentSession.model_config PersistentSession.fields true
    (PersistentSession.model_dump m).
Proof.
  split.
  - intros _. apply extra_keys_nil, PersistentSession_dump_keys.
  - unfold PersistentSession.fields, PersistentSession.model_dump.
    dump_described.
    all: try (apply optional_admitted; intros ?).
    all: try apply plain_str_admitted.
    all: by eexists.
Qed.

Lemma TextProcessingOptions_dump_described m :
  describes TextProcessingOptions.model_config TextProcessingOptions.fields
    true (TextProcessingOptions.model_dump m).
Proof.
  split.
  - intros _.
    apply extra_errors_forbid_nil, TextProcessingOptions_dump_closed.
  - unfold TextProcessingOptions.fields, TextProcessingOptions.model_dump.
    dump_described; auto with admitted.
Qed.

Lemma TextTrigger_dump_described m :
  TextTrigger.wf m ->
  describes TextTrigger.model_config TextTrigger.fields true
    (TextTrigger.model_dump m).
Proof.
  intros (Hv & Hs & Hts). split.
  - intros _. apply extra_errors_forbid_nil, TextTrigger_dump_closed.
  - unfold TextTrigger.fields, TextTrigger.model_dump. dump_described.
    + apply literal_admitted. rewrite Hv. repeat constructor.
    + eexists. split; [reflexivity |]. by apply TextSessionRef_dump_described.
    + eexists. split; [reflexivity |]. apply TextProcessingOptions_dump_described.
    + auto with admitted.
    + apply literal_admitted. rewrite Hs. repeat constructor.
    + apply optional_admitted. auto with admitted.
    + apply optional_admitted. auto with admitted.
Qed.

Lemma TextGenerateResponse_dump_described m :
  TextGenerateResponse.wf m ->
  describes TextGenerateResponse.model_config TextGenerateResponse.fields
    true (TextGenerateResponse.model_dump m).
Proof.
  intros Hst. split.
  - intros _. apply extra_errors_forbid_nil, TextGenerateResponse_dump_closed.
  - unfold TextGenerateResponse.fields, TextGenerateResponse.model_dump.
    dump_described.
    + apply literal_admitted. destruct Hst as [-> | ->]; repeat constructor.
    + auto with admitted.
    + auto with admitted.
    + apply optional_admitted. intros z. by exists z.
Qed.

(** * The contract *)

Section Contract.
Context `{LaxCoercions}.
Local Open Scope Z_scope.

(** C1. Round-trip law, for each of the five schemas.  On untyped
    structures: a structure whose fields all satisfy the declared
    constraints constructs an instance, and when the structure is in
    serialized form (every declared key, no other), serializing the
    instance gives the structure back.  On instances: the serialization of
    an instance meeting the declared constraints constructs that instance
    again; and every constructed instance meets them. *)
Theorem roundtrip_law :
  (structures_round_trip TextSessionRef.model_config TextSessionRef.fields
     TextSessionRef.validate TextSessionRef.model_dump /\
   structures_round_trip TextProcessingOptions.model_config
     TextProcessingOptions.fields
     TextProcessingOptions.validate TextProcessingOptions.model_dump /\
   structures_round_trip TextTrigger.model_config TextTrigger.fields
     TextTrigger.validate TextTrigger.model_dump /\
   structures_round_trip TextGenerateResponse.model_config
     TextGenerateResponse.fields
     TextGenerateResponse.validate TextGenerateResponse.model_dump /\
   structures_round_trip PersistentSession.model_config
     PersistentSession.fields
     PersistentSession.validate PersistentSession.model_dump) /\
  ((forall m, TextSessionRef.wf m ->
      round_trips TextSessionRef.validate TextSessionRef.model_dump m) /\
   (forall m,
      round_trips TextProcessingOptions.validate
        TextProcessingOptions.model_dump m) /\
   (forall m, TextTrigger.wf m ->
      round_trips TextTrigger.validate TextTrigger.model_dump m) /\
   (forall m, TextGenerateResponse.wf m ->
      round_trips TextGenerateResponse.validate
        TextGenerateResponse.model_dump m) /\
   (forall m,
      round_trips PersistentSession.validate
        PersistentSession.model_dump m)) /\
  ((forall d m, TextSessionRef.validate d = Ok m -> TextSessionRef.wf m) /\
   (forall d m, TextTrigger.validate d = Ok m -> TextTrigger.wf m) /\
   (forall d m,
      TextGenerateResponse.validate d = Ok m -> TextGenerateResponse.wf m)).
Proof.
  split; [| split].
  - split; [intros b d; apply TextSessionRef_describes |].
    split; [intros b d; apply TextProcessingOptions_describes |].
    split; [intros b d; apply TextTrigger_describes |].
    split; [intros b d; apply TextGenerateResponse_describes |].
    intros b d; apply PersistentSession_describes.
  - split; [intros m Hm;
            by apply round_trips_intro, TextSessionRef_dump_validate |].
    split; [intros m;
            apply round_trips_intro, TextProcessingOptions_dump_validate |].
    split; [intros m Hm; by apply round_trips_intro, TextTrigger_dump_validate |].
    split; [intros m Hm;
            by apply round_trips_intro, TextGenerateResponse_dump_validate |].
    intros m; apply round_trips_intro, PersistentSession_dump_validate.
  - split; [apply TextSessionRef_validate_wf |].
    split; [apply TextTrigger_validate_wf |].
    apply TextGenerateResponse_validate_wf.
Qed.

(** C2. The length bounds of [content]: a structure whose [content] is
    a string shorter than 50 or longer than 50,000 characters does not
    construct a [TextSessionRef]; a string of 50 to 50,000 characters
    passes the constraint, so putting it as the [content] of a structure
    that constructs gives a structure that constructs, with that
    content. *)
Theorem content_length_bounds (d : dict) (s : string) :
  (d !! "content" = Some (VStr s) ->
   len s < 50 \/ 50000 < len s ->
   fails (TextSessionRef.validate d)) /\
  (50 <= len s <= 50000 ->
   str_ (Some 50) (Some 50000) (VStr s) = Ok s /\
   forall m, TextSessionRef.validate d = Ok m ->
     exists m', TextSessionRef.validate (<["content" := VStr s]> d) = Ok m' /\
                TextSessionRef.content m' = s).
Proof.
  split.
  - intros Hd Hlen. unfold TextSessionRef.validate.
    apply with_errors_fails, ap_fails_r.
    rewrite (required_Some _ _ _ _ Hd).
    by apply at_loc_fails, str_out_of_bounds_fails.
  - intros Hlen. split; [by apply str_bounded_Ok |].
    intros m Hv. unfold TextSessionRef.validate in *. invert_validate Hv.
    rewrite extra_errors_insert_declared by (done || by repeat constructor).
    rewrite !required_insert_ne, !with_default_insert_ne by done.
    rewrite required_insert_eq, str_bounded_Ok by done.
    rewrite_fields. by eexists.
Qed.

(** C3. Closed and open schemas: a structure holding a key that the
    schema does not declare constructs no [TextSessionRef], no
    [TextProcessingOptions], no [TextTrigger] (the key may also sit in the
    embedded session reference or options) and no [TextGenerateResponse];
    for a [PersistentSession] such a key changes nothing (the outcome is
    that of the structure without it). *)
Theorem closed_and_open_schemas (d : dict) (k : string) (v : value) :
  (k ∉ TextSessionRef.model_fields ->
   fails (TextSessionRef.validate (<[k:=v]> d))) /\
  (k ∉ TextProcessingOptions.model_fields ->
   fails (TextProcessingOptions.validate (<[k:=v]> d))) /\
  (k ∉ TextTrigger.model_fields ->
   fails (TextTrigger.validate (<[k:=v]> d))) /\
  (k ∉ TextSessionRef.model_fields ->
   forall payload,
     payload !! "text_session" = Some (VDict (<[k:=v]> d)) ->
     fails (TextTrigger.validate payload)) /\
  (k ∉ TextProcessingOptions.model_fields ->
   forall payload,
     payload !! "processing_options" = Some (VDict (<[k:=v]> d)) ->
     fails (TextTrigger.validate payload)) /\
  (k ∉ TextGenerateResponse.model_fields ->
   fails (TextGenerateResponse.validate (<[k:=v]> d))) /\
  (k ∉ PersistentSession.model_fields ->
   PersistentSession.validate (<[k:=v]> d) = PersistentSession.validate d).
Proof.
  assert (is_Some (<[k:=v]> d !! k)) as Hk
    by (rewrite lookup_insert_eq; eauto).
  split; [intros Hn; by eapply forbid_undeclared_fails |].
  split; [intros Hn; by eapply forbid_undeclared_fails |].
  split; [intros Hn; by eapply forbid_undeclared_fails |].
  split.
  { intros Hn payload Hp. unfold TextTrigger.validate.
    apply with_errors_fails. do 5 apply ap_fails_l. apply ap_fails_r.
    rewrite (required_Some _ _ _ _ Hp). apply at_loc_fails. cbn [model_].
    by eapply forbid_undeclared_fails. }
  split.
  { intros Hn payload Hp. unfold TextTrigger.validate.
    apply with_errors_fails. do 4 apply ap_fails_l. apply ap_fails_r.
    rewrite (required_Some _ _ _ _ Hp). apply at_loc_fails. cbn [model_].
    by eapply forbid_undeclared_fails. }
  split; [intros Hn; by eapply forbid_undeclared_fails |].
  intros Hn.
  unfold PersistentSession.validate, PersistentSession.model_fields in *.
  rewrite !not_elem_of_cons in Hn. destruct_and!.
  rewrite !extra_errors_ignore.
  by rewrite !required_insert_ne, !with_default_insert_ne by done.
Qed.

(** C4. The trigger built from a session reference with [org_id] o1,
    [user_id] u1, [session_id] s1 and a content of 52 characters and
    from the options [workflow_recording] / [workflow_guide], every other
    field left out, constructs, and the instance has version 1.0, source
    mcp-generate, visibility private and output language auto. *)
Theorem trigger_defaults (content : string) :
  len content = 52 ->
  exists m,
    TextTrigger.validate (Samples.trigger content) = Ok m /\
    TextTrigger.version m = "1.0" /\
    TextTrigger.source m = "mcp-generate" /\
    TextTrigger.visibility m = TextVisibility.PRIVATE /\
    TextVisibility.value_of (TextTrigger.visibility m) = "private" /\
    TextProcessingOptions.output_language (TextTrigger.processing_options m)
      = TextOutputLanguage.AUTO /\
    TextOutputLanguage.value_of
      (TextProcessingOptions.output_language
         (TextTrigger.processing_options m)) = "auto".
Proof.
  intros Hlen.
  assert (TextSessionRef.validate (Samples.text_session content)
          = Ok (TextSessionRef.Build "o1" "u1" None "s1" content)) as Hts.
  { unfold TextSessionRef.validate.
    replace (extra_errors _ _ _) with (@nil ErrorDetails)
      by (by vm_compute).
    unfold Samples.text_session. lookup_fields.
    by rewrite !str_min_Ok, str_bounded_Ok by (done || lia). }
  assert (TextProcessingOptions.validate Samples.processing_options
          = Ok Samples.options) as Hpo by (by vm_compute).
  unfold TextTrigger.validate.
  replace (extra_errors _ _ _) with (@nil ErrorDetails) by (by vm_compute).
  unfold Samples.trigger. lookup_fields. cbn [model_].
  rewrite Hts, Hpo. clear Hts Hpo.
  eexists. split; [reflexivity |]. cbn. repeat split.
Qed.
(** C9. [status] is a free string: whatever the string, putting it as
    the [status] of a structure that constructs a [PersistentSession]
    gives a structure that constructs one, with that status. *)
Theorem status_free_string (d : dict) (m : PersistentSession.t) (s : string) :
  PersistentSession.validate d = Ok m ->
  exists m',
    PersistentSession.validate (<["status" := VStr s]> d) = Ok m' /\
    PersistentSession.status m' = s.
Proof.
  intros Hv. session_put_field Hv. by eexists.
Qed.
(** C10. The date-time fields are not checked for their format:
    whatever the string (the empty one, or one that is no ISO-8601 text),
    putting it under one of [created_at], [started_at], [stopped_at],
    [completed_at], [updated_at], [ttl_expires_at] in a structure that
    constructs a [PersistentSession] gives a structure that constructs
    one, with that string in the field; the same holds when it is put
    under several of them. *)
Theorem datetime_fields_unchecked (d : dict) (m : PersistentSession.t)
    (s : string) :
  PersistentSession.validate d = Ok m ->
  (exists m', PersistentSession.validate (<["created_at" := VStr s]> d) = Ok m'
              /\ PersistentSession.created_at m' = s) /\
  (exists m', PersistentSession.validate (<["started_at" := VStr s]> d) = Ok m'
              /\ PersistentSession.started_at m' = s) /\
  (exists m', PersistentSession.validate (<["stopped_at" := VStr s]> d) = Ok m'
              /\ PersistentSession.stopped_at m' = Some s) /\
  (exists m', PersistentSession.validate (<["completed_at" := VStr s]> d) = Ok m'
              /\ PersistentSession.completed_at m' = Some s) /\
  (exists m', PersistentSession.validate (<["updated_at" := VStr s]> d) = Ok m'
              /\ PersistentSession.updated_at m' = s) /\
  (exists m', PersistentSession.validate (<["ttl_expires_at" := VStr s]> d) = Ok m'
              /\ PersistentSession.ttl_expires_at m' = s) /\
  (forall ks, Forall (fun k => k ∈ PersistentSession.datetime_fields) ks ->
     is_ok (PersistentSession.validate
              (foldr (fun k acc => <[k := VStr s]> acc) d ks)) = true).
Proof.
  intros Hv.
  assert (forall d0 k,
            is_ok (PersistentSession.validate d0) = true ->
            k ∈ PersistentSession.datetime_fields ->
            is_ok (PersistentSession.validate (<[k := VStr s]> d0)) = true)
    as Hstep.
  { clear. intros d0 k Hok Hk.
    destruct (PersistentSession.validate d0) as [m0|] eqn:Hv0;
      [clear Hok | discriminate Hok].
    unfold PersistentSession.datetime_fields in Hk.
    rewrite !elem_of_cons, elem_of_nil in Hk.
    destruct Hk as [->|[->|[->|[->|[->|[->|[]]]]]]];
      session_put_field Hv0; reflexivity. }
  do 6 (split; [session_put_field Hv; eexists; split; reflexivity |]).
  intros ks Hks. induction Hks as [|k ks Hk _ IH]; cbn [foldr].
  - rewrite Hv. reflexivity.
  - apply Hstep; [exact IH | exact Hk].
Qed.

(** C5, as the code has it.  [retry_count] is an integer without a sign
    constraint: putting any integer, a negative one too, as the
    [retry_count] of a structure that constructs a [PersistentSession]
    gives a structure that constructs one, with that count; leaving the
    key out gives the count 0. *)
Theorem retry_count_any_integer_default_zero (d : dict)
    (m : PersistentSession.t) (z : Z) :
  PersistentSession.validate d = Ok m ->
  (exists m',
     PersistentSession.validate (<["retry_count" := VInt z]> d) = Ok m' /\
     PersistentSession.retry_count m' = z /\
     PersistentSession.status m' = PersistentSession.status m) /\
  (exists m',
     PersistentSession.validate (delete "retry_count" d) = Ok m' /\
     PersistentSession.retry_count m' = 0 /\
     PersistentSession.status m' = PersistentSession.status m).
Proof.
  intros Hv. split; session_put_field Hv; by eexists.
Qed.

(** C6, as the code has it.  In every constructed [PersistentSession]
    the fields [session_id], [user_id], [org_id] and
    [presence_ticket_jti] are the strings the input holds under these
    keys; any string, the empty one too, is taken; and the record is not
    frozen: assigning a string to one of them succeeds and stores it. *)
Theorem identity_fields_plain_strings (d : dict) (m : PersistentSession.t)
    (s : string) :
  PersistentSession.validate d = Ok m ->
  (d !! "session_id" = Some (VStr (PersistentSession.session_id m)) /\
   d !! "user_id" = Some (VStr (PersistentSession.user_id m)) /\
   d !! "org_id" = Some (VStr (PersistentSession.org_id m)) /\
   d !! "presence_ticket_jti"
     = Some (VStr (PersistentSession.presence_ticket_jti m))) /\
  ((exists m', PersistentSession.validate (<["session_id" := VStr s]> d) = Ok m'
               /\ PersistentSession.session_id m' = s) /\
   (exists m', PersistentSession.validate (<["user_id" := VStr s]> d) = Ok m'
               /\ PersistentSession.user_id m' = s) /\
   (exists m', PersistentSession.validate (<["org_id" := VStr s]> d) = Ok m'
               /\ PersistentSession.org_id m' = s) /\
   (exists m',
      PersistentSession.validate (<["presence_ticket_jti" := VStr s]> d)
        = Ok m' /\
      PersistentSession.presence_ticket_jti m' = s)) /\
  ((exists m', PersistentSession.set_session_id s m = Ok m' /\
               PersistentSession.session_id m' = s) /\
   (exists m', PersistentSession.set_user_id s m = Ok m' /\
               PersistentSession.user_id m' = s) /\
   (exists m', PersistentSession.set_org_id s m = Ok m' /\
               PersistentSession.org_id m' = s) /\
   (exists m', PersistentSession.set_presence_ticket_jti s m = Ok m' /\
               PersistentSession.presence_ticket_jti m' = s)).
Proof.
  intros Hv. split; [| split].
  - unfold PersistentSession.validate in Hv. invert_validate Hv. simpl.
    repeat split; by apply required_str_Ok_inv.
  - repeat split; session_put_field Hv; by eexists.
  - clear Hv. destruct m. repeat split; by eexists.
Qed.

(** C8, as the code has it.  [processing_time_seconds] is a float
    without a sign constraint: putting any float, a negative one too, as
    the [processing_time_seconds] of a structure that constructs a
    [PersistentSession] gives a structure that constructs one, with that
    value in the field. *)
Theorem processing_time_any_float (d : dict) (m : PersistentSession.t)
    (f : float) :
  PersistentSession.validate d = Ok m ->
  exists m',
    PersistentSession.validate
      (<["processing_time_seconds" := VFloat f]> d) = Ok m' /\
    PersistentSession.processing_time_seconds m' = Some f.
Proof.
  intros Hv. session_put_field Hv. by eexists.
Qed.

(** C7, as the code has it.  The [output_language] field of
    [TextProcessingOptions] takes exactly a closed set of twenty values:
    "auto" and nineteen language codes.  A structure whose
    [output_language] is any other value constructs no
    [TextProcessingOptions]; each of the twenty strings validates as the
    member it is the value of; and putting one of them as the
    [output_language] of a structure that constructs gives a structure
    that constructs, with that member as its language and the other
    fields as before. *)
Theorem output_language_closed_set (d : dict) (v : value) :
  TextOutputLanguage.codes =
    ["en"; "es"; "fr"; "de"; "pt"; "zh"; "ja"; "ko"; "ar"; "he"; "ru";
     "it"; "nl"; "pl"; "tr"; "vi"; "th"; "id"; "hi"] /\
  length TextOutputLanguage.codes = 19%nat /\
  TextOutputLanguage.value_of <$> TextOutputLanguage.members
    = "auto" :: TextOutputLanguage.codes /\
  (d !! "output_language" = Some v ->
   (forall s, s ∈ "auto" :: TextOutputLanguage.codes -> v <> VStr s) ->
   fails (TextProcessingOptions.validate d)) /\
  (forall s, s ∈ "auto" :: TextOutputLanguage.codes ->
     exists e, TextOutputLanguage.validate (VStr s) = Ok e /\
               TextOutputLanguage.value_of e = s) /\
  (forall s m, s ∈ "auto" :: TextOutputLanguage.codes ->
     TextProcessingOptions.validate d = Ok m ->
     exists m',
       TextProcessingOptions.validate (<["output_language" := VStr s]> d)
         = Ok m' /\
       TextOutputLanguage.value_of (TextProcessingOptions.output_language m')
         = s /\
       TextProcessingOptions.input_type m'
         = TextProcessingOptions.input_type m /\
       TextProcessingOptions.output_format m'
         = TextProcessingOptions.output_format m /\
       TextProcessingOptions.model m' = TextProcessingOptions.model m).
Proof.
  split; [done |]. split; [done |]. split; [done |]. split; [| split].
  - intros Hd Hv. unfold TextProcessingOptions.validate.
    apply with_errors_fails, ap_fails_r.
    rewrite (with_default_Some _ _ _ _ _ Hd).
    by apply at_loc_fails, enum_other_fails.
  - intros s Hs. by apply enum_member_Ok.
  - intros s m Hs Hv.
    apply (enum_member_Ok TextOutputLanguage.members
             TextOutputLanguage.value_of) in Hs as (e & He & Hvalue).
    unfold TextProcessingOptions.validate in *. invert_validate Hv.
    rewrite extra_errors_insert_declared
      by first [assumption | repeat constructor].
    rewrite with_default_insert_eq.
    rewrite !required_insert_ne, !with_default_insert_ne by done.
    unfold TextOutputLanguage.validate at 1. rewrite He.
    rewrite_fields. eexists. split; [reflexivity |].
    split; [exact Hvalue |]. split; [reflexivity |]. split; reflexivity.
Qed.
End Contract.

(** * Where the code departs from the contract as written *)

(** C5: a failed session with [retry_count] [-1] is not rejected; it
    constructs, and the instance holds [-1]. *)
Lemma failed_session_negative_retry_count_accepted :
  (forall L : LaxCoercions,
     @PersistentSession.validate L Samples.failed_session
       = Ok Samples.failed_instance /\
     ~ fails (@PersistentSession.validate L Samples.failed_session)) /\
  PersistentSession.status Samples.failed_instance = "failed" /\
  PersistentSession.retry_count Samples.failed_instance = (-1)%Z.
Proof.
  split; [| done]. intros L.
  assert (@PersistentSession.validate L Samples.failed_session
          = Ok Samples.failed_instance) as -> by (vm_compute; reflexivity).
  split; [reflexivity | discriminate].
Qed.

(** C6: a session whose four identity fields are empty strings constructs,
    and a later assignment replaces its [session_id]. *)
Lemma identity_fields_empty_and_assignable :
  (forall L : LaxCoercions,
     @PersistentSession.validate L Samples.anonymous_session
       = Ok Samples.anonymous_instance) /\
  (PersistentSession.session_id Samples.anonymous_instance = "" /\
   PersistentSession.user_id Samples.anonymous_instance = "" /\
   PersistentSession.org_id Samples.anonymous_instance = "" /\
   PersistentSession.presence_ticket_jti Samples.anonymous_instance = "") /\
  exists m',
    PersistentSession.set_session_id "s2" Samples.anonymous_instance = Ok m' /\
    PersistentSession.session_id m'
      <> PersistentSession.session_id Samples.anonymous_instance.
Proof.
  split; [intros L; vm_compute; reflexivity |].
  split; [done |].
  eexists. split; [reflexivity | discriminate].
Qed.

(** C7: the accepted strings are not "auto" and twenty codes: no list of
    twenty distinct codes other than "auto" describes them. *)
Lemma output_language_codes_are_not_twenty :
  ~ exists codes : list string,
      length codes = 20%nat /\ NoDup codes /\ ("auto" ∉ codes) /\
      forall s, is_ok (TextOutputLanguage.validate (VStr s)) = true
                <-> s = "auto" \/ s ∈ codes.
Proof.
  intros (codes & Hlen & Hnd & Hauto & Hacc).
  assert (NoDup ("auto" :: codes)) as Hnd' by by constructor.
  assert (forall s, s ∈ "auto" :: codes ->
            s ∈ TextOutputLanguage.value_of <$> TextOutputLanguage.members)
    as Hsub.
  { intros s Hs. apply elem_of_cons, Hacc in Hs.
    destruct (decide (s ∈ TextOutputLanguage.value_of
                          <$> TextOutputLanguage.members)) as [|Hn]; [done |].
    apply (enum_not_member_fails TextOutputLanguage.members) in Hn.
    unfold fails, TextOutputLanguage.validate in *. congruence. }
  apply NoDup_submseteq, submseteq_length in Hsub; [| done].
  cbn [length] in Hsub. rewrite Hlen in Hsub.
  change (length (TextOutputLanguage.value_of <$> TextOutputLanguage.members))
    with 20%nat in Hsub.
  lia.
Qed.

(** C8: a session with [processing_time_seconds] [-1.5] is not rejected;
    it constructs, and the instance holds the negative value. *)
Lemma negative_processing_time_accepted :
  (forall L : LaxCoercions,
     @PersistentSession.validate L Samples.negative_time_session
       = Ok Samples.negative_time_instance) /\
  PersistentSession.processing_time_seconds Samples.negative_time_instance
    = Some Samples.minus_one_and_a_half /\
  SFltb Samples.minus_one_and_a_half (S754_zero false) = true.
Proof.
  split; [intros L; vm_compute; reflexivity | done].
Qed.

(** * The theorems at sample structures *)

Lemma session_constructs :
  @PersistentSession.validate strict_numbers Samples.session
    = Ok Samples.session_instance.
Proof. vm_compute. reflexivity. Defined.

Lemma session_ref_wf : TextSessionRef.wf Samples.session_ref.
Proof. unfold TextSessionRef.wf, len. simpl. lia. Defined.

Lemma trigger_instance_wf : TextTrigger.wf Samples.trigger_instance.
Proof. split; [reflexivity |]. split; [reflexivity |]. exact session_ref_wf. Defined.

Lemma not_declared (k : string) (fields : list string) :
  bool_decide (k ∈ fields) = false -> k ∉ fields.
Proof. intros Hb Hin. apply bool_decide_eq_false in Hb. exact (Hb Hin). Defined.

(** The sample session record, with its defaulted keys left out,
    satisfies the declared constraints. *)
Lemma session_described :
  describes PersistentSession.model_config PersistentSession.fields false
    Samples.session.
Proof.
  split; [intros [[=]|[=]] |].
  unfold PersistentSession.fields.
  repeat (apply Forall_cons; split;
          [ first [ eapply described_lookup;
                    [reflexivity | apply plain_str_admitted]
                  | vm_compute; split; reflexivity ] |]).
  apply Forall_nil_2.
Defined.

Lemma roundtrip_law_witness :
  (exists m,
     @PersistentSession.validate strict_numbers Samples.session = Ok m) /\
  (exists m,
     TextTrigger.validate (TextTrigger.model_dump Samples.trigger_instance)
       = Ok m /\
     TextTrigger.model_dump m = TextTrigger.model_dump Samples.trigger_instance) /\
  round_trips TextTrigger.validate TextTrigger.model_dump
    Samples.trigger_instance.
Proof.
  destruct (@roundtrip_law strict_numbers)
    as ((_ & _ & Htrigger & _ & Hsession) & (_ & _ & Hinstance & _) & _).
  split; [| split].
  - destruct (Hsession false Samples.session session_described) as (m & Hm & _).
    by exists m.
  - destruct (Htrigger true (TextTrigger.model_dump Samples.trigger_instance)
                (TextTrigger_dump_described _ trigger_instance_wf))
      as (m & Hm & Hdump).
    exists m. split; [exact Hm | exact (Hdump eq_refl)].
  - apply Hinstance. exact trigger_instance_wf.
Defined.

Lemma content_length_bounds_witness :
  fails (TextSessionRef.validate (Samples.text_session "too short")) /\
  exists m',
    TextSessionRef.validate
      (<["content" := VStr Samples.content52]>
         (Samples.text_session Samples.content52)) = Ok m' /\
    TextSessionRef.content m' = Samples.content52.
Proof.
  split.
  - apply (content_length_bounds (Samples.text_session "too short") "too short").
    + vm_compute. reflexivity.
    + left. unfold len. simpl. lia.
  - apply (content_length_bounds (Samples.text_session Samples.content52)
             Samples.content52) with (m := Samples.session_ref).
    + unfold len. simpl. lia.
    + vm_compute. reflexivity.
Defined.

Lemma closed_and_open_schemas_witness :
  fails (TextTrigger.validate
           (<["priority" := VInt 1]> (Samples.trigger Samples.content52))) /\
  fails (TextTrigger.validate
           (<["text_session" :=
                VDict (<["priority" := VInt 1]>
                         (Samples.text_session Samples.content52))]>
              (Samples.trigger Samples.content52))) /\
  @PersistentSession.validate strict_numbers
    (<["priority" := VInt 1]> Samples.session)
    = @PersistentSession.validate strict_numbers Samples.session.
Proof.
  split; [| split].
  - apply (@closed_and_open_schemas strict_numbers
             (Samples.trigger Samples.content52) "priority" (VInt 1)).
    apply not_declared. vm_compute. reflexivity.
  - destruct (@closed_and_open_schemas strict_numbers
                (Samples.text_session Samples.content52) "priority" (VInt 1))
      as (_ & _ & _ & Hnested & _).
    apply Hnested.
    + apply not_declared. vm_compute. reflexivity.
    + vm_compute. reflexivity.
  - apply (@closed_and_open_schemas strict_numbers
             Samples.session "priority" (VInt 1)).
    apply not_declared. vm_compute. reflexivity.
Defined.

Lemma trigger_defaults_witness :
  exists m,
    TextTrigger.validate (Samples.trigger Samples.content52) = Ok m /\
    TextTrigger.version m = "1.0" /\
    TextTrigger.source m = "mcp-generate" /\
    TextTrigger.visibility m = TextVisibility.PRIVATE /\
    TextVisibility.value_of (TextTrigger.visibility m) = "private" /\
    TextProcessingOptions.output_language (TextTrigger.processing_options m)
      = TextOutputLanguage.AUTO /\
    TextOutputLanguage.value_of
      (TextProcessingOptions.output_language
         (TextTrigger.processing_options m)) = "auto".
Proof. apply (trigger_defaults Samples.content52). vm_compute. reflexivity. Defined.

Lemma retry_count_any_integer_default_zero_witness :
  (exists m',
     @PersistentSession.validate strict_numbers
       (<["retry_count" := VInt (-1)]> Samples.session) = Ok m' /\
     PersistentSession.retry_count m' = (-1)%Z /\
     PersistentSession.status m'
       = PersistentSession.status Samples.session_instance) /\
  (exists m',
     @PersistentSession.validate strict_numbers
       (delete "retry_count" Samples.session) = Ok m' /\
     PersistentSession.retry_count m' = 0%Z /\
     PersistentSession.status m'
       = PersistentSession.status Samples.session_instance).
Proof.
  exact (@retry_count_any_integer_default_zero strict_numbers Samples.session
           Samples.session_instance (-1)%Z session_constructs).
Defined.

Lemma identity_fields_plain_strings_witness :
  Samples.session !! "session_id"
    = Some (VStr (PersistentSession.session_id Samples.session_instance)) /\
  exists m',
    @PersistentSession.validate strict_numbers
      (<["session_id" := VStr ""]> Samples.session) = Ok m' /\
    PersistentSession.session_id m' = "".
Proof.
  destruct (@identity_fields_plain_strings strict_numbers Samples.session
              Samples.session_instance "" session_constructs)
    as ((Hsid & _) & (Hempty & _) & _).
  split; [exact Hsid | exact Hempty].
Defined.

Lemma output_language_closed_set_witness :
  fails (TextProcessingOptions.validate
           (<["output_language" := VStr "xx"]> Samples.processing_options)) /\
  exists m',
    TextProcessingOptions.validate
      (<["output_language" := VStr "fr"]> Samples.processing_options) = Ok m' /\
    TextOutputLanguage.value_of (TextProcessingOptions.output_language m')
      = "fr" /\
    TextProcessingOptions.input_type m'
      = TextProcessingOptions.input_type Samples.options /\
    TextProcessingOptions.output_format m'
      = TextProcessingOptions.output_format Samples.options /\
    TextProcessingOptions.model m'
      = TextProcessingOptions.model Samples.options.
Proof.
  split.
  - destruct (output_language_closed_set
                (<["output_language" := VStr "xx"]> Samples.processing_options)
                (VStr "xx")) as (_ & _ & _ & Hrefused & _).
    apply Hrefused.
    + vm_compute. reflexivity.
    + intros s Hs [= <-]. revert Hs. apply not_declared.
      vm_compute. reflexivity.
  - destruct (output_language_closed_set Samples.processing_options VNone)
      as (_ & _ & _ & _ & _ & Haccepted).
    apply (Haccepted "fr" Samples.options).
    + apply (bool_decide_unpack _). vm_compute. exact I.
    + vm_compute. reflexivity.
Defined.

Lemma processing_time_any_float_witness :
  exists m',
    @PersistentSession.validate strict_numbers
      (<["processing_time_seconds" := VFloat Samples.minus_one_and_a_half]>
         Samples.session) = Ok m' /\
    PersistentSession.processing_time_seconds m'
      = Some Samples.minus_one_and_a_half.
Proof.
  exact (@processing_time_any_float strict_numbers Samples.session
           Samples.session_instance Samples.minus_one_and_a_half
           session_constructs).
Defined.

Lemma status_free_string_witness :
  exists m',
    @PersistentSession.validate strict_numbers
      (<["status" := VStr "paused"]> Samples.session) = Ok m' /\
    PersistentSession.status m' = "paused".
Proof.
  exact (@status_free_string strict_numbers Samples.session
           Samples.session_instance "paused" session_constructs).
Defined.

Lemma datetime_fields_unchecked_witness :
  (exists m',
     @PersistentSession.validate strict_numbers
       (<["created_at" := VStr ""]> Samples.session) = Ok m' /\
     PersistentSession.created_at m' = "") /\
  is_ok (@PersistentSession.validate strict_numbers
           (<["stopped_at" := VStr ""]>
              (<["ttl_expires_at" := VStr ""]> Samples.session))) = true.
Proof.
  destruct (@datetime_fields_unchecked strict_numbers Samples.session
              Samples.session_instance "" session_constructs)
    as (Hcreated & _ & _ & _ & _ & _ & Hseveral).
  split; [exact Hcreated |].
  apply (Hseveral ["stopped_at"; "ttl_expires_at"]).
  repeat constructor.
Defined.

(** * Further properties of the schemas *)

Section ErrorFacts.
Context {A B : Type}.
Implicit Types (x : ErrorDetails).

Lemma errors_fails (r : result A) x : x ∈ errors_of r -> fails r.
Proof. destruct r; [by intros ?%elem_of_nil | done]. Qed.

Lemma errors_fmap (f : A -> B) (r : result A) x :
  x ∈ errors_of r -> x ∈ errors_of (f <$> r).
Proof. by destruct r. Qed.

Lemma errors_ap_l (rf : result (A -> B)) (ra : result A) x :
  x ∈ errors_of rf -> x ∈ errors_of (rf <*> ra).
Proof.
  destruct rf as [f|e1], ra as [a|e2]; simpl; intros Hx;
    [by apply elem_of_nil in Hx | by apply elem_of_nil in Hx | done |].
  apply elem_of_app. by left.
Qed.

Lemma errors_ap_r (rf : result (A -> B)) (ra : result A) x :
  x ∈ errors_of ra -> x ∈ errors_of (rf <*> ra).
Proof.
  destruct rf as [f|e1], ra as [a|e2]; simpl; intros Hx;
    [by apply elem_of_nil in Hx | done | by apply elem_of_nil in Hx |].
  apply elem_of_app. by right.
Qed.

Lemma errors_with_errors_l (r : result A) more x :
  x ∈ errors_of r -> x ∈ errors_of (with_errors r more).
Proof.
  destruct r as [a|e], more as [|e' more]; simpl; intros Hx;
    [by apply elem_of_nil in Hx | by apply elem_of_nil in Hx | done |].
  apply elem_of_app. by left.
Qed.

Lemma errors_with_errors_r (r : result A) more x :
  x ∈ more -> x ∈ errors_of (with_errors r more).
Proof.
  destruct more as [|e more]; [by intros ?%elem_of_nil |].
  destruct r; simpl; [done |]. intros. apply elem_of_app. by right.
Qed.

Lemma errors_required_missing (validator : value -> result A)
    (d : gmap string value) (k : string) :
  d !! k = None ->
  {| type := missing; loc := [k] |} ∈ errors_of (required k validator d).
Proof. unfold required. intros ->. simpl. by left. Qed.
End ErrorFacts.

Lemma reports_intro {A} (r : result A) (t : ErrorType) (at_ : list string) :
  {| type := t; loc := at_ |} ∈ errors_of r -> reports r t at_.
Proof. intros Hr. split; [by eapply errors_fails | done]. Qed.

Lemma errors_undeclared {A} (r : result A) (fields : list string)
    (d : gmap string value) (k : string) :
  is_Some (d !! k) -> k ∉ fields ->
  {| type := extra_forbidden; loc := [k] |}
    ∈ errors_of (with_errors r (extra_errors forbid_config fields d)).
Proof.
  intros Hk Hn. apply errors_with_errors_r. unfold extra_errors; simpl.
  apply (list_elem_of_fmap_2 (fun k => {| type := extra_forbidden; loc := [k] |})).
  by apply elem_of_extra_keys.
Qed.

(** Replace the list of names in [Hk : k ∈ names] by its value. *)
Ltac compute_names Hk :=
  match type of Hk with
  | ?k ∈ ?l => let l' := eval vm_compute in l in change (k ∈ l') in Hk
  end.

(** One case per name of [Hk : k ∈ [n1; ...; nk]]. *)
Ltac each_name Hk :=
  compute_names Hk;
  repeat (apply elem_of_cons in Hk as [->|Hk]);
  [.. | destruct (proj1 (elem_of_nil _) Hk)].

(** A missing required field is among the reported errors. *)
Ltac missing_reported :=
  apply errors_with_errors_l;
  repeat first
    [ solve [apply errors_ap_r, errors_required_missing; assumption]
    | apply errors_ap_l ];
  try solve [apply errors_fmap, errors_required_missing; assumption].


Lemma with_errors_Ok_iff {A} (r : result A) (e1 e2 : list ErrorDetails) (a : A) :
  (e1 = [] <-> e2 = []) ->
  with_errors r e1 = Ok a <-> with_errors r e2 = Ok a.
Proof.
  intros He. split; intros [Hr Hnil]%with_errors_Ok_inv.
  - apply He in Hnil as ->. done.
  - apply He in Hnil as ->. done.
Qed.

Lemma extra_errors_nullable (fields : list string) (d : gmap string value)
    (k : string) (v : value) :
  k ∈ fields ->
  extra_errors forbid_config fields (<[k:=v]> d) = [] <->
  extra_errors forbid_config fields (delete k d) = [].
Proof.
  intros Hk. rewrite !extra_errors_forbid_nil. split; intros Hd k' Hk'.
  - destruct (decide (k = k')) as [<-|Hne]; [done |].
    apply Hd. rewrite lookup_insert_ne by done.
    by rewrite lookup_delete_ne in Hk' by done.
  - destruct (decide (k = k')) as [<-|Hne]; [done |].
    apply Hd. rewrite lookup_delete_ne by done.
    by rewrite lookup_insert_ne in Hk' by done.
Qed.

(** The fields of a model, after one key was put or removed. *)
Ltac fields_after_update :=
  rewrite ?required_insert_eq, ?with_default_insert_eq,
    ?with_default_delete_eq;
  rewrite ?required_insert_ne, ?with_default_insert_ne,
    ?required_delete_ne, ?with_default_delete_ne by done.

Section ReportedErrors.
Context `{LaxCoercions}.
Local Open Scope Z_scope.

(** Every required field that is missing is reported, as an error of
  type [missing] located at the field, and the construction fails. *)
Theorem missing_required_fields_reported (d : dict) (k : string) :
d !! k = None ->
(k ∈ required_names TextSessionRef.fields ->
 reports (TextSessionRef.validate d) missing [k]) /\
(k ∈ required_names TextProcessingOptions.fields ->
 reports (TextProcessingOptions.validate d) missing [k]) /\
(k ∈ required_names TextTrigger.fields ->
 reports (TextTrigger.validate d) missing [k]) /\
(k ∈ required_names TextGenerateResponse.fields ->
 reports (TextGenerateResponse.validate d) missing [k]) /\
(k ∈ required_names PersistentSession.fields ->
 reports (PersistentSession.validate d) missing [k]).
Proof.
intros Hd.
split; [| split; [| split; [| split]]]; intros Hk; apply reports_intro.
- unfold TextSessionRef.validate. each_name Hk; missing_reported.
- unfold TextProcessingOptions.validate. each_name Hk; missing_reported.
- unfold TextTrigger.validate. each_name Hk; missing_reported.
- unfold TextGenerateResponse.validate. each_name Hk; missing_reported.
- unfold PersistentSession.validate. each_name Hk; missing_reported.
Qed.

(** In a closed schema every undeclared key is reported, as an error of
  type [extra_forbidden] located at the key. *)
Theorem undeclared_keys_reported (d : dict) (k : string) :
is_Some (d !! k) ->
(k ∉ TextSessionRef.model_fields ->
 reports (TextSessionRef.validate d) extra_forbidden [k]) /\
(k ∉ TextProcessingOptions.model_fields ->
 reports (TextProcessingOptions.validate d) extra_forbidden [k]) /\
(k ∉ TextTrigger.model_fields ->
 reports (TextTrigger.validate d) extra_forbidden [k]) /\
(k ∉ TextGenerateResponse.model_fields ->
 reports (TextGenerateResponse.validate d) extra_forbidden [k]).
Proof.
intros Hk.
split; [| split; [| split]]; intros Hn;
  by apply reports_intro, errors_undeclared.
Qed.

(** An optional field that holds [None] is a field left out.  For the
  session record the outcome is the same; for the closed schemas the
  same instances are constructed. *)
Theorem explicit_none_is_omitted (d : dict) (k : string) :
(k ∈ nullable_names PersistentSession.fields ->
 PersistentSession.validate (<[k := VNone]> d)
   = PersistentSession.validate (delete k d)) /\
(k ∈ nullable_names TextSessionRef.fields ->
 forall m, TextSessionRef.validate (<[k := VNone]> d) = Ok m <->
           TextSessionRef.validate (delete k d) = Ok m) /\
(k ∈ nullable_names TextTrigger.fields ->
 forall m, TextTrigger.validate (<[k := VNone]> d) = Ok m <->
           TextTrigger.validate (delete k d) = Ok m) /\
(k ∈ nullable_names TextGenerateResponse.fields ->
 forall m, TextGenerateResponse.validate (<[k := VNone]> d) = Ok m <->
           TextGenerateResponse.validate (delete k d) = Ok m).
Proof.
split; [| split; [| split]].
- intros Hk. unfold PersistentSession.validate.
  rewrite !extra_errors_ignore.
  each_name Hk; fields_after_update; reflexivity.
- intros Hk m. unfold TextSessionRef.validate.
  each_name Hk; fields_after_update;
    apply with_errors_Ok_iff, extra_errors_nullable; repeat constructor.
- intros Hk m. unfold TextTrigger.validate.
  each_name Hk; fields_after_update;
    apply with_errors_Ok_iff, extra_errors_nullable; repeat constructor.
- intros Hk m. unfold TextGenerateResponse.validate.
  each_name Hk; fields_after_update;
    apply with_errors_Ok_iff, extra_errors_nullable; repeat constructor.
Qed.
End ReportedErrors.

Section FieldFailures.
Context {A : Type} (validator : value -> result A).

Lemma required_fails (d : gmap string value) (k : string) (v : value) :
  d !! k = Some v -> fails (validator v) -> fails (required k validator d).
Proof. intros Hk Hv. rewrite (required_Some _ _ _ _ Hk). by apply at_loc_fails. Qed.

Lemma with_default_fails (d : gmap string value) (k : string) (v : value)
    (a0 : A) :
  d !! k = Some v -> fails (validator v) ->
  fails (with_default k validator a0 d).
Proof.
  intros Hk Hv. rewrite (with_default_Some _ _ _ _ _ Hk).
  by apply at_loc_fails.
Qed.

Lemma with_default_Ok_inv (d : gmap string value) (k : string) (a0 a : A) :
  with_default k validator a0 d = Ok a ->
  (d !! k = None /\ a = a0) \/
  (exists v, d !! k = Some v /\ validator v = Ok a).
Proof.
  unfold with_default. destruct (d !! k) as [v|].
  - intros ?%at_loc_Ok_inv. right. eauto.
  - intros [= <-]. by left.
Qed.
End FieldFailures.

Lemma Literal_other_fails (allowed : list string) (v : value) :
  (forall s, s ∈ allowed -> v <> VStr s) -> fails (Literal allowed v).
Proof.
  intros Hv. destruct (Literal allowed v) as [s|] eqn:Hl; [| done].
  apply Literal_Ok_inv in Hl as [-> Hs]. by destruct (Hv s).
Qed.

Lemma str_other_fails (lo hi : option Z) (v : value) :
  (forall s, v <> VStr s) -> fails (str_ lo hi v).
Proof. intros Hv. destruct v; try done. by destruct (Hv s). Qed.

Lemma model_Ok_inv {A} (validate : gmap string value -> result A)
    (v : value) (a : A) :
  model_ validate v = Ok a -> exists d, v = VDict d /\ validate d = Ok a.
Proof. destruct v; try discriminate. eauto. Qed.

Lemma Optional_Ok_inv {A} (validator : value -> result A) (v : value)
    (o : option A) :
  Optional validator v = Ok o ->
  (v = VNone /\ o = None) \/ (exists a, validator v = Ok a /\ o = Some a).
Proof.
  unfold Optional. destruct v; [intros [= <-]; by left | ..];
    intros (a & ? & ->)%fmap_Ok_inv; right; eauto.
Qed.

(** The construction fails when the field that holds the offending value
    does; [tac] shows that its validator refuses the value. *)
Ltac field_fails tac :=
  apply with_errors_fails;
  repeat first
    [ solve [ apply ap_fails_r;
              first [eapply required_fails | eapply with_default_fails];
              [eassumption | tac] ]
    | apply ap_fails_l ];
  try solve [ apply fmap_fails;
              first [eapply required_fails | eapply with_default_fails];
              [eassumption | tac] ].

(** The default of a field whose key is absent. *)
Ltac default_taken :=
  match goal with
  | Hnone : ?d !! ?k = None, H : with_default ?k _ _ ?d = Ok _ |- _ =>
      rewrite (with_default_None _ _ _ _ Hnone) in H;
      injection H as <-; reflexivity
  end.

Section DefaultsAndLiterals.
Context `{LaxCoercions}.
Local Open Scope Z_scope.

(** The defaults of the session record: a record constructed from a
  structure without [version] has version 1, without [retry_count] the
  count 0, and an optional field that is left out is [None]. *)
Theorem session_defaults (d : dict) (m : PersistentSession.t) :
PersistentSession.validate d = Ok m ->
(d !! "version" = None -> PersistentSession.version m = 1) /\
(d !! "retry_count" = None -> PersistentSession.retry_count m = 0) /\
(d !! "stopped_at" = None -> PersistentSession.stopped_at m = None) /\
(d !! "completed_at" = None -> PersistentSession.completed_at m = None) /\
(d !! "substatus" = None -> PersistentSession.substatus m = None) /\
(d !! "processing_id" = None -> PersistentSession.processing_id m = None) /\
(d !! "firestore_path" = None ->
 PersistentSession.firestore_path m = None) /\
(d !! "processing_time_seconds" = None ->
 PersistentSession.processing_time_seconds m = None) /\
(d !! "stopped_by_user_id" = None ->
 PersistentSession.stopped_by_user_id m = None) /\
(d !! "stop_method" = None -> PersistentSession.stop_method m = None) /\
(d !! "error" = None -> PersistentSession.error m = None) /\
(d !! "error_code" = None -> PersistentSession.error_code m = None).
Proof.
intros Hv. unfold PersistentSession.validate in Hv. invert_validate Hv.
cbn [PersistentSession.version PersistentSession.retry_count
     PersistentSession.stopped_at PersistentSession.completed_at
     PersistentSession.substatus PersistentSession.processing_id
     PersistentSession.firestore_path
     PersistentSession.processing_time_seconds
     PersistentSession.stopped_by_user_id PersistentSession.stop_method
     PersistentSession.error PersistentSession.error_code].
do 11 (split; [intros Hnone; default_taken |]).
intros Hnone; default_taken.
Qed.

(** The defaults of the trigger family: a trigger constructed from a
  payload without [visibility] is private, options constructed without
  [model] name the model gemini-3-pro-preview and without
  [output_language] the language auto, and the optional fields that are
  left out are [None]. *)
Theorem trigger_family_defaults :
(forall d m, TextTrigger.validate d = Ok m ->
   (d !! "visibility" = None ->
    TextTrigger.visibility m = TextVisibility.PRIVATE) /\
   (d !! "project_id" = None -> TextTrigger.project_id m = None) /\
   (d !! "name" = None -> TextTrigger.name m = None)) /\
(forall d m, TextProcessingOptions.validate d = Ok m ->
   (d !! "model" = None ->
    TextProcessingOptions.model m = "gemini-3-pro-preview") /\
   (d !! "output_language" = None ->
    TextProcessingOptions.output_language m = TextOutputLanguage.AUTO)) /\
(forall d m, TextSessionRef.validate d = Ok m ->
   d !! "user_email" = None -> TextSessionRef.user_email m = None) /\
(forall d m, TextGenerateResponse.validate d = Ok m ->
   d !! "estimated_seconds" = None ->
   TextGenerateResponse.estimated_seconds m = None).
Proof.
split; [| split; [| split]].
- intros d m Hv. unfold TextTrigger.validate in Hv. invert_validate Hv.
  cbn [TextTrigger.visibility TextTrigger.project_id TextTrigger.name].
  do 2 (split; [intros Hnone; default_taken |]).
  intros Hnone; default_taken.
- intros d m Hv. unfold TextProcessingOptions.validate in Hv.
  invert_validate Hv.
  cbn [TextProcessingOptions.model TextProcessingOptions.output_language].
  split; intros Hnone; default_taken.
- intros d m Hv Hnone. unfold TextSessionRef.validate in Hv.
  invert_validate Hv. cbn [TextSessionRef.user_email]. default_taken.
- intros d m Hv Hnone. unfold TextGenerateResponse.validate in Hv.
  invert_validate Hv. cbn [TextGenerateResponse.estimated_seconds].
  default_taken.
Qed.

(** [version] and [source] of a trigger are fixed: a payload that holds
  anything but "1.0" under [version], or anything but "mcp-generate"
  under [source], constructs no trigger. *)
Theorem trigger_fixed_literals (d : dict) (v : value) :
(d !! "version" = Some v -> v <> VStr "1.0" ->
 fails (TextTrigger.validate d)) /\
(d !! "source" = Some v -> v <> VStr "mcp-generate" ->
 fails (TextTrigger.validate d)).
Proof.
split; intros Hd Hv; unfold TextTrigger.validate.
- field_fails ltac:(apply Literal_other_fails;
                    by intros s ->%list_elem_of_singleton).
- field_fails ltac:(apply Literal_other_fails;
                    by intros s ->%list_elem_of_singleton).
Qed.
End DefaultsAndLiterals.

Lemma required_ext {A} (validator : value -> result A)
    (d d' : gmap string value) (k : string) :
  d !! k = d' !! k -> required k validator d = required k validator d'.
Proof. unfold required. by intros ->. Qed.

Lemma with_default_ext {A} (validator : value -> result A) (a0 : A)
    (d d' : gmap string value) (k : string) :
  d !! k = d' !! k ->
  with_default k validator a0 d = with_default k validator a0 d'.
Proof. unfold with_default. by intros ->. Qed.

(** The construction from a closed structure in which one declared key
    was put. *)
Ltac closed_put_field Hv :=
  invert_validate Hv;
  rewrite extra_errors_insert_declared
    by first [assumption | repeat constructor];
  fields_after_update;
  rewrite_fields.

Section FieldsAndEmbedding.
Context `{LaxCoercions}.
Local Open Scope Z_scope.

(** [input_type], [output_format] and [visibility] are closed sets: a
  structure that holds under one of them anything but the value of a
  member constructs nothing, and each listed string validates as the
  member it is the value of. *)
Theorem enumerated_fields_closed (d : dict) (v : value) :
(d !! "input_type" = Some v ->
 (forall s, s ∈ ["workflow_recording"; "teaching_session"] -> v <> VStr s) ->
 fails (TextProcessingOptions.validate d)) /\
(d !! "output_format" = Some v ->
 (forall s, s ∈ ["workflow_guide"; "knowledge_base"] -> v <> VStr s) ->
 fails (TextProcessingOptions.validate d)) /\
(d !! "visibility" = Some v ->
 (forall s, s ∈ ["private"; "org:view"; "org:edit"] -> v <> VStr s) ->
 fails (TextTrigger.validate d)) /\
(forall s,
   (s ∈ ["workflow_recording"; "teaching_session"] ->
    exists e, TextInputType.validate (VStr s) = Ok e /\
              TextInputType.value_of e = s) /\
   (s ∈ ["workflow_guide"; "knowledge_base"] ->
    exists e, TextOutputFormat.validate (VStr s) = Ok e /\
              TextOutputFormat.value_of e = s) /\
   (s ∈ ["private"; "org:view"; "org:edit"] ->
    exists e, TextVisibility.validate (VStr s) = Ok e /\
              TextVisibility.value_of e = s)).
Proof.
split; [| split; [| split]].
- intros Hd Hv. unfold TextProcessingOptions.validate.
  field_fails ltac:(by apply enum_other_fails).
- intros Hd Hv. unfold TextProcessingOptions.validate.
  field_fails ltac:(by apply enum_other_fails).
- intros Hd Hv. unfold TextTrigger.validate.
  field_fails ltac:(by apply enum_other_fails).
- intros s. split; [| split]; intros Hs.
  + by apply (enum_member_Ok TextInputType.members).
  + by apply (enum_member_Ok TextOutputFormat.members).
  + by apply (enum_member_Ok TextVisibility.members).
Qed.

(** The values of each enumeration are pairwise distinct, the list of
  members is complete, and a member is recovered from its value. *)
Theorem enumeration_values_distinct :
(NoDup (TextOutputLanguage.value_of <$> TextOutputLanguage.members) /\
 forall e, e ∈ TextOutputLanguage.members /\
           TextOutputLanguage.validate (TextOutputLanguage.dump e) = Ok e) /\
(NoDup (TextInputType.value_of <$> TextInputType.members) /\
 forall e, e ∈ TextInputType.members /\
           TextInputType.validate (TextInputType.dump e) = Ok e) /\
(NoDup (TextOutputFormat.value_of <$> TextOutputFormat.members) /\
 forall e, e ∈ TextOutputFormat.members /\
           TextOutputFormat.validate (TextOutputFormat.dump e) = Ok e) /\
(NoDup (TextVisibility.value_of <$> TextVisibility.members) /\
 forall e, e ∈ TextVisibility.members /\
           TextVisibility.validate (TextVisibility.dump e) = Ok e).
Proof.
split; [| split; [| split]]; (split; [by apply (bool_decide_unpack _) |]).
- intros e. split; [destruct e; repeat constructor |].
  apply TextOutputLanguage_dump_validate.
- intros e. split; [destruct e; repeat constructor |].
  apply TextInputType_dump_validate.
- intros e. split; [destruct e; repeat constructor |].
  apply TextOutputFormat_dump_validate.
- intros e. split; [destruct e; repeat constructor |].
  apply TextVisibility_dump_validate.
Qed.

(** The identifiers of a session reference are non-empty: a structure
  whose [org_id], [user_id] or [session_id] is the empty string
  constructs nothing, and any non-empty string is taken. *)
Theorem session_ref_identifiers_non_empty (d : dict) (k : string)
  (s : string) :
k ∈ ["org_id"; "user_id"; "session_id"] ->
(d !! k = Some (VStr "") -> fails (TextSessionRef.validate d)) /\
(1 <= len s ->
 forall m, TextSessionRef.validate d = Ok m ->
   is_ok (TextSessionRef.validate (<[k := VStr s]> d)) = true).
Proof.
intros Hk. split.
- intros Hd. unfold TextSessionRef.validate.
  each_name Hk; field_fails ltac:(reflexivity).
- intros Hs m Hv. unfold TextSessionRef.validate in *.
  each_name Hk; closed_put_field Hv;
    rewrite str_min_Ok by done; reflexivity.
Qed.

(** A trigger is built from its embedded models: when a payload
  constructs a trigger, [text_session] and [processing_options] hold
  structures, and these construct, on their own, the session reference
  and the options of the trigger.  When one of them holds no structure,
  or a structure that does not construct, there is no trigger. *)
Theorem trigger_embeds_models (d : dict) :
(forall m, TextTrigger.validate d = Ok m ->
   exists ts po,
     d !! "text_session" = Some (VDict ts) /\
     TextSessionRef.validate ts = Ok (TextTrigger.text_session m) /\
     d !! "processing_options" = Some (VDict po) /\
     TextProcessingOptions.validate po
       = Ok (TextTrigger.processing_options m)) /\
(forall v, d !! "text_session" = Some v ->
   (forall ts, v = VDict ts -> fails (TextSessionRef.validate ts)) ->
   fails (TextTrigger.validate d)) /\
(forall v, d !! "processing_options" = Some v ->
   (forall po, v = VDict po -> fails (TextProcessingOptions.validate po)) ->
   fails (TextTrigger.validate d)).
Proof.
split; [| split].
- intros m Hv. unfold TextTrigger.validate in Hv. invert_validate Hv.
  repeat match goal with
         | Hf : required _ (model_ _) _ = Ok _ |- _ =>
             apply required_Ok_inv in Hf
               as (? & ? & (? & -> & ?)%model_Ok_inv)
         end.
  cbn [TextTrigger.text_session TextTrigger.processing_options]. eauto 10.
- intros v Hd Hv. unfold TextTrigger.validate.
  field_fails ltac:(destruct v; try reflexivity; by apply Hv).
- intros v Hd Hv. unfold TextTrigger.validate.
  field_fails ltac:(destruct v; try reflexivity; by apply Hv).
Qed.

(** Only the declared keys of a session record count: two structures
  that agree on the declared keys have the same outcome. *)
Theorem session_depends_on_declared_keys (d d' : dict) :
Forall (fun k => d !! k = d' !! k) PersistentSession.model_fields ->
PersistentSession.validate d = PersistentSession.validate d'.
Proof.
intros Hsame. unfold PersistentSession.model_fields in Hsame.
split_fields Hsame.
unfold PersistentSession.validate. rewrite !extra_errors_ignore.
repeat match goal with
       | Hk : d !! ?k = d' !! ?k |- _ =>
           first [ rewrite (required_ext _ d d' k Hk)
                 | rewrite (with_default_ext _ _ d d' k Hk) ];
           clear Hk
       end.
reflexivity.
Qed.
End FieldsAndEmbedding.

Lemma errors_required_type {A} (validator : value -> result A) (t : ErrorType)
    (d : gmap string value) (k : string) (v : value) :
  d !! k = Some v -> validator v = fail t ->
  {| type := t; loc := [k] |} ∈ errors_of (required k validator d).
Proof.
  intros Hk Hv. rewrite (required_Some _ _ _ _ Hk), Hv. simpl. by left.
Qed.

Lemma str_other_type (lo hi : option Z) (v : value) :
  (forall s, v <> VStr s) -> str_ lo hi v = fail string_type.
Proof. intros Hv. destruct v; try done. by destruct (Hv s). Qed.

(** A required field that holds a value of the wrong type is among the
    reported errors. *)
Ltac wrong_type_reported :=
  apply errors_with_errors_l;
  repeat first
    [ solve [ apply errors_ap_r; eapply errors_required_type;
              [eassumption | by apply str_other_type] ]
    | apply errors_ap_l ];
  try solve [ apply errors_fmap; eapply errors_required_type;
              [eassumption | by apply str_other_type] ].

Section SerializationAndStrings.
Context `{LaxCoercions}.
Local Open Scope Z_scope.

(** Serialization loses nothing: two instances with the same
  serialization are the same instance. *)
Theorem model_dump_injective :
(forall m1 m2, TextSessionRef.wf m1 -> TextSessionRef.wf m2 ->
   TextSessionRef.model_dump m1 = TextSessionRef.model_dump m2 -> m1 = m2) /\
(forall m1 m2,
   TextProcessingOptions.model_dump m1 = TextProcessingOptions.model_dump m2 ->
   m1 = m2) /\
(forall m1 m2, TextTrigger.wf m1 -> TextTrigger.wf m2 ->
   TextTrigger.model_dump m1 = TextTrigger.model_dump m2 -> m1 = m2) /\
(forall m1 m2, TextGenerateResponse.wf m1 -> TextGenerateResponse.wf m2 ->
   TextGenerateResponse.model_dump m1 = TextGenerateResponse.model_dump m2 ->
   m1 = m2) /\
(forall m1 m2,
   PersistentSession.model_dump m1 = PersistentSession.model_dump m2 ->
   m1 = m2).
Proof.
split; [| split; [| split; [| split]]].
- intros m1 m2 H1%TextSessionRef_dump_validate
    H2%TextSessionRef_dump_validate Heq.
  rewrite Heq in H1. congruence.
- intros m1 m2 Heq.
  pose proof (TextProcessingOptions_dump_validate m1) as H1.
  pose proof (TextProcessingOptions_dump_validate m2) as H2.
  rewrite Heq in H1. congruence.
- intros m1 m2 H1%TextTrigger_dump_validate H2%TextTrigger_dump_validate Heq.
  rewrite Heq in H1. congruence.
- intros m1 m2 H1%TextGenerateResponse_dump_validate
    H2%TextGenerateResponse_dump_validate Heq.
  rewrite Heq in H1. congruence.
- intros m1 m2 Heq.
  pose proof (PersistentSession_dump_validate m1) as H1.
  pose proof (PersistentSession_dump_validate m2) as H2.
  rewrite Heq in H1. congruence.
Qed.

(** Whatever structure constructed an instance, the serialization of the
  instance is in serialized form (every declared key, each value of the
  declared type) and constructs the same instance again. *)
Theorem serialization_revalidates :
(forall d m, TextSessionRef.validate d = Ok m ->
   describes TextSessionRef.model_config TextSessionRef.fields true
     (TextSessionRef.model_dump m) /\
   TextSessionRef.validate (TextSessionRef.model_dump m) = Ok m) /\
(forall d m, TextProcessingOptions.validate d = Ok m ->
   describes TextProcessingOptions.model_config TextProcessingOptions.fields
     true (TextProcessingOptions.model_dump m) /\
   TextProcessingOptions.validate (TextProcessingOptions.model_dump m)
     = Ok m) /\
(forall d m, TextTrigger.validate d = Ok m ->
   describes TextTrigger.model_config TextTrigger.fields true
     (TextTrigger.model_dump m) /\
   TextTrigger.validate (TextTrigger.model_dump m) = Ok m) /\
(forall d m, TextGenerateResponse.validate d = Ok m ->
   describes TextGenerateResponse.model_config TextGenerateResponse.fields
     true (TextGenerateResponse.model_dump m) /\
   TextGenerateResponse.validate (TextGenerateResponse.model_dump m)
     = Ok m) /\
(forall d m, PersistentSession.validate d = Ok m ->
   describes PersistentSession.model_config PersistentSession.fields true
     (PersistentSession.model_dump m) /\
   PersistentSession.validate (PersistentSession.model_dump m) = Ok m).
Proof.
split; [| split; [| split; [| split]]].
- intros d m Hwf%TextSessionRef_validate_wf. split.
  + by apply TextSessionRef_dump_described.
  + by apply TextSessionRef_dump_validate.
- intros d m _. split.
  + apply TextProcessingOptions_dump_described.
  + apply TextProcessingOptions_dump_validate.
- intros d m Hwf%TextTrigger_validate_wf. split.
  + by apply TextTrigger_dump_described.
  + by apply TextTrigger_dump_validate.
- intros d m Hwf%TextGenerateResponse_validate_wf. split.
  + by apply TextGenerateResponse_dump_described.
  + by apply TextGenerateResponse_dump_validate.
- intros d m _. split.
  + apply PersistentSession_dump_described.
  + apply PersistentSession_dump_validate.
Qed.

(** The free strings of the trigger family: [user_email], [model],
  [project_id], [name], and the [session_id] and [message] of a
  response take any string, the empty one too. *)
Theorem trigger_family_free_strings (s : string) :
(forall d m, TextSessionRef.validate d = Ok m ->
   exists m', TextSessionRef.validate (<["user_email" := VStr s]> d) = Ok m'
              /\ TextSessionRef.user_email m' = Some s) /\
(forall d m, TextProcessingOptions.validate d = Ok m ->
   exists m', TextProcessingOptions.validate (<["model" := VStr s]> d) = Ok m'
              /\ TextProcessingOptions.model m' = s) /\
(forall d m, TextTrigger.validate d = Ok m ->
   (exists m', TextTrigger.validate (<["project_id" := VStr s]> d) = Ok m'
               /\ TextTrigger.project_id m' = Some s) /\
   (exists m', TextTrigger.validate (<["name" := VStr s]> d) = Ok m'
               /\ TextTrigger.name m' = Some s)) /\
(forall d m, TextGenerateResponse.validate d = Ok m ->
   (exists m', TextGenerateResponse.validate (<["session_id" := VStr s]> d)
                 = Ok m'
               /\ TextGenerateResponse.session_id m' = s) /\
   (exists m', TextGenerateResponse.validate (<["message" := VStr s]> d)
                 = Ok m'
               /\ TextGenerateResponse.message m' = s)).
Proof.
split; [| split; [| split]].
- intros d m Hv. unfold TextSessionRef.validate in *.
  closed_put_field Hv. eexists. split; reflexivity.
- intros d m Hv. unfold TextProcessingOptions.validate in *.
  closed_put_field Hv. eexists. split; reflexivity.
- intros d m Hv. unfold TextTrigger.validate in *.
  split; closed_put_field Hv; eexists; split; reflexivity.
- intros d m Hv. unfold TextGenerateResponse.validate in *.
  split; closed_put_field Hv; eexists; split; reflexivity.
Qed.

(** No string field of the session record is constrained: in a structure
  that constructs a record, any strings may be put under any of the
  fields annotated [str] or [Optional[str]], and the structure still
  constructs a record. *)
Theorem session_string_fields_free (d : dict) (m : PersistentSession.t)
  (strings : gmap string string) :
PersistentSession.validate d = Ok m ->
(forall k, is_Some (strings !! k) ->
           k ∈ free_str_names PersistentSession.fields) ->
is_ok (PersistentSession.validate ((VStr <$> strings) ∪ d)) = true.
Proof.
intros Hv.
assert (forall d0 k s,
          is_ok (PersistentSession.validate d0) = true ->
          k ∈ free_str_names PersistentSession.fields ->
          is_ok (PersistentSession.validate (<[k := VStr s]> d0)) = true)
  as Hstep.
{ clear. intros d0 k s Hok Hk.
  destruct (PersistentSession.validate d0) as [m0|] eqn:Hv0;
    [clear Hok | discriminate Hok].
  each_name Hk; session_put_field Hv0; reflexivity. }
induction strings as [|k s strings Hk _ IH] using map_first_key_ind.
- intros _. rewrite fmap_empty, (left_id_L ∅ (∪)), Hv. reflexivity.
- intros Hnames. rewrite fmap_insert, <- insert_union_l.
  apply Hstep.
  + apply IH. intros k' Hk'. apply Hnames.
    destruct (decide (k = k')) as [<-|Hne].
    * rewrite lookup_insert_eq. eauto.
    * by rewrite lookup_insert_ne.
  + apply Hnames. rewrite lookup_insert_eq. eauto.
Qed.

(** A required string field takes nothing but a string: [None], a number,
  a boolean, a list or a structure under it is reported as an error of
  type [string_type] located at the field. *)
Theorem required_strings_typed (d : dict) (k : string) (v : value) :
d !! k = Some v ->
(forall s, v <> VStr s) ->
(k ∈ required_str_names PersistentSession.fields ->
 reports (PersistentSession.validate d) string_type [k]) /\
(k ∈ required_str_names TextSessionRef.fields ->
 reports (TextSessionRef.validate d) string_type [k]) /\
(k ∈ required_str_names TextGenerateResponse.fields ->
 reports (TextGenerateResponse.validate d) string_type [k]).
Proof.
intros Hd Hv. split; [| split]; intros Hk; apply reports_intro.
- unfold PersistentSession.validate. each_name Hk; wrong_type_reported.
- unfold TextSessionRef.validate. each_name Hk; wrong_type_reported.
- unfold TextGenerateResponse.validate. each_name Hk; wrong_type_reported.
Qed.
End SerializationAndStrings.

(** A declared key is present in a serialization. *)
Ltac declared_key_present Hk :=
  each_name Hk; eexists; reflexivity.

Section KeysAndResponses.
Context `{LaxCoercions}.
Local Open Scope Z_scope.

(** The keys of a serialization are the declared fields, all of them and
  no other: an optional field that is unset is there, with [None]. *)
Theorem model_dump_keys (k : string) :
(forall m, is_Some (TextSessionRef.model_dump m !! k)
           <-> k ∈ TextSessionRef.model_fields) /\
(forall m, is_Some (TextProcessingOptions.model_dump m !! k)
           <-> k ∈ TextProcessingOptions.model_fields) /\
(forall m, is_Some (TextTrigger.model_dump m !! k)
           <-> k ∈ TextTrigger.model_fields) /\
(forall m, is_Some (TextGenerateResponse.model_dump m !! k)
           <-> k ∈ TextGenerateResponse.model_fields) /\
(forall m, is_Some (PersistentSession.model_dump m !! k)
           <-> k ∈ PersistentSession.model_fields).
Proof.
split; [| split; [| split; [| split]]]; intros m; split.
- apply extra_errors_forbid_nil, TextSessionRef_dump_closed.
- intros Hk. unfold TextSessionRef.model_dump. declared_key_present Hk.
- apply extra_errors_forbid_nil, TextProcessingOptions_dump_closed.
- intros Hk. unfold TextProcessingOptions.model_dump.
  declared_key_present Hk.
- apply extra_errors_forbid_nil, TextTrigger_dump_closed.
- intros Hk. unfold TextTrigger.model_dump. declared_key_present Hk.
- apply extra_errors_forbid_nil, TextGenerateResponse_dump_closed.
- intros Hk. unfold TextGenerateResponse.model_dump.
  declared_key_present Hk.
- apply extra_keys_nil, PersistentSession_dump_keys.
- intros Hk. unfold PersistentSession.model_dump. declared_key_present Hk.
Qed.

(** The [status] of a response is "accepted" or "error": a structure that
  holds anything else under [status] constructs no response. *)
Theorem response_status_closed (d : dict) (v : value) :
d !! "status" = Some v ->
v <> VStr "accepted" -> v <> VStr "error" ->
fails (TextGenerateResponse.validate d).
Proof.
intros Hd Ha He. unfold TextGenerateResponse.validate.
field_fails ltac:(apply Literal_other_fails; intros s Hs;
                  rewrite !elem_of_cons, elem_of_nil in Hs;
                  destruct Hs as [->|[->|[]]]; assumption).
Qed.

(** A response with an allowed status, any [session_id] and any [message]
  constructs: without [estimated_seconds] the estimate is unset, and
  with an integer, of either sign, the estimate is that integer. *)
Theorem response_estimate_optional (status session_id message : string)
  (z : Z) :
status = "accepted" \/ status = "error" ->
TextGenerateResponse.validate
  (list_to_map
     [("status", VStr status); ("session_id", VStr session_id);
      ("message", VStr message)])
= Ok (TextGenerateResponse.Build status session_id message None) /\
TextGenerateResponse.validate
  (list_to_map
     [("status", VStr status); ("session_id", VStr session_id);
      ("message", VStr message); ("estimated_seconds", VInt z)])
= Ok (TextGenerateResponse.Build status session_id message (Some z)).
Proof.
intros [-> | ->]; split; vm_compute; reflexivity.
Qed.
End KeysAndResponses.

Lemma errors_at_loc {A} (k : string) (r : result A) (x : ErrorDetails) :
  x ∈ errors_of r ->
  {| type := type x; loc := k :: loc x |} ∈ errors_of (at_loc k r).
Proof.
  destruct r as [a|e]; simpl; [by intros ?%elem_of_nil |].
  apply (list_elem_of_fmap_2 (fun x => {| type := type x; loc := k :: loc x |})).
Qed.

Lemma errors_required_inside {A} (validator : value -> result A)
    (d : gmap string value) (k : string) (v : value) (x : ErrorDetails) :
  d !! k = Some v -> x ∈ errors_of (validator v) ->
  {| type := type x; loc := k :: loc x |} ∈ errors_of (required k validator d).
Proof.
  intros Hk Hx. rewrite (required_Some _ _ _ _ Hk). by apply errors_at_loc.
Qed.

Section EmbeddedErrors.
Context `{LaxCoercions}.

(** The errors of an embedded model are errors of the trigger, located
  under the field that embeds it. *)
Theorem embedded_errors_located (d inner : dict) (x : ErrorDetails) :
(d !! "text_session" = Some (VDict inner) ->
 x ∈ errors_of (TextSessionRef.validate inner) ->
 reports (TextTrigger.validate d) (type x) ("text_session" :: loc x)) /\
(d !! "processing_options" = Some (VDict inner) ->
 x ∈ errors_of (TextProcessingOptions.validate inner) ->
 reports (TextTrigger.validate d) (type x)
   ("processing_options" :: loc x)).
Proof.
split; intros Hd Hx; apply reports_intro; unfold TextTrigger.validate;
  apply errors_with_errors_l.
- do 5 apply errors_ap_l. apply errors_ap_r.
  by apply (errors_required_inside _ _ _ _ _ Hd).
- do 4 apply errors_ap_l. apply errors_ap_r.
  by apply (errors_required_inside _ _ _ _ _ Hd).
Qed.
End EmbeddedErrors.

(** * The further properties at sample structures *)

Lemma missing_required_fields_reported_witness :
  reports (@PersistentSession.validate strict_numbers
             (delete "status" Samples.session)) missing ["status"] /\
  reports (TextTrigger.validate ∅) missing ["text_session"].
Proof.
  split.
  - destruct (@missing_required_fields_reported strict_numbers
                (delete "status" Samples.session) "status"
                (lookup_delete_eq _ _)) as (_ & _ & _ & _ & Hsession).
    apply Hsession. apply (bool_decide_unpack _). vm_compute. exact I.
  - destruct (@missing_required_fields_reported strict_numbers
                ∅ "text_session" (lookup_empty _)) as (_ & _ & Htrigger & _).
    apply Htrigger. apply (bool_decide_unpack _). vm_compute. exact I.
Defined.

Lemma undeclared_keys_reported_witness :
  reports (TextProcessingOptions.validate
             (<["priority" := VInt 1]> Samples.processing_options))
    extra_forbidden ["priority"].
Proof.
  destruct (@undeclared_keys_reported strict_numbers
              (<["priority" := VInt 1]> Samples.processing_options)
              "priority") as (_ & Hoptions & _).
  - rewrite lookup_insert_eq. eexists. reflexivity.
  - apply Hoptions. apply not_declared. vm_compute. reflexivity.
Defined.

Lemma explicit_none_is_omitted_witness :
  @PersistentSession.validate strict_numbers
    (<["substatus" := VNone]> Samples.session)
  = @PersistentSession.validate strict_numbers
      (delete "substatus" Samples.session).
Proof.
  destruct (@explicit_none_is_omitted strict_numbers Samples.session
              "substatus") as (Hsession & _).
  apply Hsession. apply (bool_decide_unpack _). vm_compute. exact I.
Defined.

Lemma session_defaults_witness :
  PersistentSession.version Samples.session_instance = 1%Z /\
  PersistentSession.substatus Samples.session_instance = None.
Proof.
  destruct (@session_defaults strict_numbers Samples.session
              Samples.session_instance session_constructs)
    as (Hversion & _ & _ & _ & Hsubstatus & _).
  split; [apply Hversion | apply Hsubstatus]; vm_compute; reflexivity.
Defined.

Lemma options_construct :
  TextProcessingOptions.validate Samples.processing_options
  = Ok Samples.options.
Proof. vm_compute. reflexivity. Defined.

Lemma trigger_constructs :
  TextTrigger.validate (Samples.trigger Samples.content52)
  = Ok Samples.trigger_instance.
Proof. vm_compute. reflexivity. Defined.

Lemma session_ref_constructs :
  TextSessionRef.validate (Samples.text_session Samples.content52)
  = Ok Samples.session_ref.
Proof. vm_compute. reflexivity. Defined.

Lemma trigger_family_defaults_witness :
  TextProcessingOptions.model Samples.options = "gemini-3-pro-preview" /\
  TextTrigger.visibility Samples.trigger_instance = TextVisibility.PRIVATE.
Proof.
  destruct (@trigger_family_defaults strict_numbers)
    as (Htrigger & Hoptions & _).
  split.
  - apply (Hoptions Samples.processing_options Samples.options
             options_construct).
    vm_compute. reflexivity.
  - apply (Htrigger (Samples.trigger Samples.content52)
             Samples.trigger_instance trigger_constructs).
    vm_compute. reflexivity.
Defined.

Lemma trigger_fixed_literals_witness :
  fails (TextTrigger.validate
           (<["version" := VStr "2.0"]> (Samples.trigger Samples.content52))).
Proof.
  destruct (trigger_fixed_literals
              (<["version" := VStr "2.0"]> (Samples.trigger Samples.content52))
              (VStr "2.0")) as [Hversion _].
  apply Hversion.
  - vm_compute. reflexivity.
  - discriminate.
Defined.

Lemma enumerated_fields_closed_witness :
  fails (TextTrigger.validate
           (<["visibility" := VStr "public"]>
              (Samples.trigger Samples.content52))).
Proof.
  destruct (enumerated_fields_closed
              (<["visibility" := VStr "public"]>
                 (Samples.trigger Samples.content52))
              (VStr "public")) as (_ & _ & Hvisibility & _).
  apply Hvisibility.
  - vm_compute. reflexivity.
  - intros s Hs [= <-]. revert Hs. apply not_declared. vm_compute. reflexivity.
Defined.

Lemma session_ref_identifiers_non_empty_witness :
  fails (TextSessionRef.validate
           (<["org_id" := VStr ""]> (Samples.text_session Samples.content52)))
  /\
  is_ok (TextSessionRef.validate
           (<["org_id" := VStr "o2"]>
              (Samples.text_session Samples.content52))) = true.
Proof.
  assert ("org_id" ∈ ["org_id"; "user_id"; "session_id"]) as Hk
    by (apply (bool_decide_unpack _); vm_compute; exact I).
  split.
  - destruct (session_ref_identifiers_non_empty
                (<["org_id" := VStr ""]>
                   (Samples.text_session Samples.content52))
                "org_id" "" Hk) as [Hempty _].
    apply Hempty. vm_compute. reflexivity.
  - destruct (session_ref_identifiers_non_empty
                (Samples.text_session Samples.content52) "org_id" "o2" Hk)
      as [_ Hany].
    apply (Hany ltac:(vm_compute; discriminate) Samples.session_ref).
    exact session_ref_constructs.
Defined.

Lemma trigger_embeds_models_witness :
  exists ts po,
    Samples.trigger Samples.content52 !! "text_session" = Some (VDict ts) /\
    TextSessionRef.validate ts = Ok Samples.session_ref /\
    Samples.trigger Samples.content52 !! "processing_options"
      = Some (VDict po) /\
    TextProcessingOptions.validate po = Ok Samples.options.
Proof.
  destruct (@trigger_embeds_models (Samples.trigger Samples.content52))
    as (Hembeds & _).
  apply (Hembeds Samples.trigger_instance trigger_constructs).
Defined.

Lemma session_depends_on_declared_keys_witness :
  @PersistentSession.validate strict_numbers
    (<["trace" := VList []]> (<["priority" := VInt 1]> Samples.session))
  = @PersistentSession.validate strict_numbers Samples.session.
Proof.
  apply (@session_depends_on_declared_keys strict_numbers).
  unfold PersistentSession.model_fields.
  repeat (apply Forall_cons; split; [vm_compute; reflexivity |]).
  apply Forall_nil_2.
Defined.

Lemma model_dump_injective_witness :
  Samples.session_ref = Samples.session_ref.
Proof.
  destruct (@model_dump_injective strict_numbers) as (Href & _).
  apply Href; [exact session_ref_wf | exact session_ref_wf | reflexivity].
Defined.

Lemma serialization_revalidates_witness :
  TextTrigger.validate (TextTrigger.model_dump Samples.trigger_instance)
  = Ok Samples.trigger_instance.
Proof.
  destruct (@serialization_revalidates strict_numbers)
    as (_ & _ & Htrigger & _).
  apply (Htrigger (Samples.trigger Samples.content52)
           Samples.trigger_instance trigger_constructs).
Defined.

Lemma trigger_family_free_strings_witness :
  exists m',
    TextSessionRef.validate
      (<["user_email" := VStr "not an address"]>
         (Samples.text_session Samples.content52)) = Ok m' /\
    TextSessionRef.user_email m' = Some "not an address".
Proof.
  destruct (@trigger_family_free_strings strict_numbers "not an address")
    as (Href & _).
  apply (Href _ Samples.session_ref session_ref_constructs).
Defined.

Lemma session_string_fields_free_witness :
  is_ok (@PersistentSession.validate strict_numbers
           ((VStr <$> {["substatus" := "paused"; "error" := ""]})
              ∪ Samples.session)) = true.
Proof.
  apply (@session_string_fields_free strict_numbers Samples.session
           Samples.session_instance
           {["substatus" := "paused"; "error" := ""]} session_constructs).
  intros k Hk.
  destruct (decide (k = "substatus")) as [->|Hs];
    [apply (bool_decide_unpack _); vm_compute; exact I |].
  destruct (decide (k = "error")) as [->|He];
    [apply (bool_decide_unpack _); vm_compute; exact I |].
  rewrite lookup_insert_ne, lookup_singleton_ne in Hk by done.
  destruct Hk as [? [=]].
Defined.

Lemma required_strings_typed_witness :
  reports (@PersistentSession.validate strict_numbers
             (<["status" := VNone]> Samples.session)) string_type ["status"].
Proof.
  destruct (@required_strings_typed strict_numbers
              (<["status" := VNone]> Samples.session) "status" VNone)
    as (Hsession & _).
  - vm_compute. reflexivity.
  - discriminate.
  - apply Hsession. apply (bool_decide_unpack _). vm_compute. exact I.
Defined.

Lemma response_status_closed_witness :
  fails (@TextGenerateResponse.validate strict_numbers
           (TextGenerateResponse.model_dump
              (TextGenerateResponse.Build "queued" "s1" "ok" None))).
Proof.
  apply (@response_status_closed strict_numbers _ (VStr "queued")).
  - vm_compute. reflexivity.
  - discriminate.
  - discriminate.
Defined.

Lemma response_estimate_optional_witness :
  @TextGenerateResponse.validate strict_numbers
    (list_to_map
       [("status", VStr "accepted"); ("session_id", VStr "s1");
        ("message", VStr "queued")])
  = Ok Samples.response.
Proof.
  destruct (@response_estimate_optional strict_numbers "accepted" "s1"
              "queued" 0%Z) as [Hunset _]; [by left |].
  exact Hunset.
Defined.

Lemma embedded_errors_located_witness :
  reports (TextTrigger.validate (Samples.trigger "too short"))
    string_too_short ["text_session"; "content"].
Proof.
  destruct (@embedded_errors_located (Samples.trigger "too short")
              (Samples.text_session "too short")
              {| type := string_too_short; loc := ["content"] |})
    as [Hsession _].
  apply Hsession.
  - vm_compute. reflexivity.
  - vm_compute. left.
Defined.
